(** * HotelBooking: the room allocation engine of [bookRoom.py]

    A shallow embedding of the [Hotel] class (inventory, travel-time
    metric, single-floor and multi-floor search, booking, cancellation,
    randomize, reset) and of the request validator of [bookingRouter.py],
    followed by the properties of the engine.

    Python integers are unbounded, so room numbers and counts are [Z].
    The occupancy dictionary [available_rooms] is a [gmap Z bool]
    ([true] = free).  Methods that mutate [self.available_rooms] take the
    dictionary and return the new one together with the returned dict,
    which is modelled by the type [response]. *)

From stdpp Require Import gmap list list_numbers sorting strings pretty.

Local Open Scope Z_scope.

(** ** Python helpers *)

(** [range(start, stop)] *)
Definition range (start stop : Z) : list Z := seqZ start (stop - start).

(** [l[i:j]] for indices [0 <= i] and [0 <= j] (the only ones the
    source uses: [i] comes from a [range] and [num_rooms >= 1]). *)
Definition slice {A} (l : list A) (i j : Z) : list A :=
  drop (Z.to_nat i) (take (Z.to_nat j) l).

(** [len(l)] as a Python integer. *)
Definition len {A} (l : list A) : Z := Z.of_nat (length l).

(** [l[0]] and [l[-1]].  Both raise [IndexError] on an empty list; every
    list the source indexes this way is non-empty (lemmas
    [slice_nonempty] and [sorted_nonempty] below), and the value 0 given
    here for the empty list is never used. *)
Definition first (l : list Z) : Z := default 0 (head l).
Definition final (l : list Z) : Z := default 0 (last l).

(** [sorted(l)] and [l.sort()] on integers. *)
Definition sorted (l : list Z) : list Z := merge_sort Z.le l.

(** [str(l)] for a list of integers, as an f-string prints it. *)
Definition str_list (l : list Z) : string :=
  "[" +:+ String.concat ", " (pretty <$> l) +:+ "]".

(** A travel time as the searches hold it: an [int], or [float('inf')]. *)
Inductive minutes := Finite (t : Z) | Infinity.

(** [time < min_time] with [time] an [int]. *)
Definition lt_minutes (time : Z) (min_time : minutes) : bool :=
  match min_time with
  | Finite m => bool_decide (time < m)
  | Infinity => true
  end.

(** ** Results *)

Inductive BookingType := SINGLE_FLOOR | MULTI_FLOOR.

Definition BookingType_value (t : BookingType) : string :=
  match t with
  | SINGLE_FLOOR => "single-floor"
  | MULTI_FLOOR => "multi-floor"
  end.

(** The five [{"error": ...}] dictionaries of [bookRoom.py], one
    constructor per message; [error_message] gives the text. *)
Inductive error :=
| MaxRoomsPerBooking
| InvalidNumberOfRooms
| NotEnoughRooms
| RoomNotAvailable (room : Z)
| RoomNotValid (room : Z).

Definition error_message (e : error) : string :=
  match e with
  | MaxRoomsPerBooking => "Maximum 5 rooms per booking allowed."
  | InvalidNumberOfRooms => "Invalid number of rooms requested."
  | NotEnoughRooms => "Not enough rooms available for booking."
  | RoomNotAvailable room => "Room " +:+ pretty room +:+ " is not available."
  | RoomNotValid room => "Room " +:+ pretty room +:+ " is not a valid room."
  end.

(** [{"booked_rooms": ..., "travel_time": ..., "booking_type": ...}] *)
Record booking := Booking {
  booked_rooms : list Z;
  travel_time : minutes;
  booking_type : BookingType
}.

Inductive response :=
| Error (e : error)
| Booked (b : booking)
| Status (success : bool) (message : string).

(** Modelled from the spec: the error taxonomy of section 7, which the
    source does not declare (it only has the messages above).  Each
    message is given the class whose description it matches: the two
    room-count messages are [InvalidRequest], "is not available" is
    [RoomUnavailable], "is not a valid room" is [UnknownRoom], "Not
    enough rooms" is [InsufficientCapacity]. *)
Inductive ErrorClass :=
| InvalidRequest
| RoomUnavailable
| UnknownRoom
| InsufficientCapacity.

Definition classify (e : error) : ErrorClass :=
  match e with
  | MaxRoomsPerBooking => InvalidRequest
  | InvalidNumberOfRooms => InvalidRequest
  | NotEnoughRooms => InsufficientCapacity
  | RoomNotAvailable _ => RoomUnavailable
  | RoomNotValid _ => UnknownRoom
  end.

(** ** class Hotel *)

Module Hotel.

(** [self.floors] and [self.rooms_per_floor] are set once in
    [__init__] and never assigned again. *)
Definition floors : Z := 10.
Definition rooms_per_floor : list Z := replicate 9%nat 10 ++ [7].

(** [self.rooms_per_floor[floor - 1]].  Every call site has [floor]
    in [range(1, self.floors + 1)], where the index is in range
    (lemma [rooms_per_floor_lookup]); 0 stands for the [IndexError]
    that is never raised. *)
Definition rooms_on (floor : Z) : Z :=
  default 0 (rooms_per_floor !! Z.to_nat (floor - 1)).

Definition _initialize_rooms : gmap Z bool :=
  foldl (λ available floor,
           let rooms_count := rooms_on floor in
           foldl (λ available room,
                    let room_number := floor * 100 + room in
                    <[room_number := true]> available)
                 available (range 1 (rooms_count + 1)))
        ∅ (range 1 (floors + 1)).

Definition _travel_time (room1 room2 : Z) : Z :=
  let '(floor1, room_num1) := (room1 `div` 100, room1 `mod` 100) in
  let '(floor2, room_num2) := (room2 `div` 100, room2 `mod` 100) in
  let vertical_time := Z.abs (floor1 - floor2) * 2 in
  let horizontal_time := Z.abs (room_num1 - room_num2) in
  vertical_time + horizontal_time.

Definition _get_available_rooms_on_floor
    (available_rooms : gmap Z bool) (floor : Z) : list Z :=
  let rooms_count := rooms_on floor in
  foldl (λ floor_rooms room,
           let room_number := floor * 100 + room in
           if default false (available_rooms !! room_number)
           then floor_rooms ++ [room_number]
           else floor_rooms)
        [] (range 1 (rooms_count + 1)).

(** The body of the window loop, the same text in both searches
    (lines 61-66 and 89-94): score the window starting at [i] and keep
    it when it is strictly better. *)
Definition try_window (available : list Z) (num_rooms : Z)
    (best : list Z * minutes) (i : Z) : list Z * minutes :=
  let '(best_rooms, min_time) := best in
  let rooms := slice available i (i + num_rooms) in
  let time := _travel_time (first rooms) (final rooms) in
  if lt_minutes time min_time then (rooms, Finite time)
  else (best_rooms, min_time).

Definition _find_best_rooms_single_floor
    (available_rooms : gmap Z bool) (num_rooms : Z) : list Z * minutes :=
  foldl (λ best floor,
           let available := _get_available_rooms_on_floor available_rooms floor in
           if bool_decide (len available >= num_rooms)
           then foldl (try_window available num_rooms) best
                      (range 0 (len available - num_rooms + 1))
           else best)
        ([], Infinity) (range 1 (floors + 1)).

Definition _find_best_rooms_multi_floor
    (available_rooms : gmap Z bool) (num_rooms : Z) : list Z * minutes :=
  let all_available :=
    foldl (λ all_available floor,
             all_available ++ _get_available_rooms_on_floor available_rooms floor)
          [] (range 1 (floors + 1)) in
  if bool_decide (len all_available < num_rooms) then ([], Infinity)
  else
    let all_available := sorted all_available in
    foldl (try_window all_available num_rooms) ([], Infinity)
          (range 0 (len all_available - num_rooms + 1)).

(** [for room in rooms: self.available_rooms[room] = False] *)
Definition mark_booked (available_rooms : gmap Z bool) (rooms : list Z)
    : gmap Z bool :=
  foldl (λ available room, <[room := false]> available) available_rooms rooms.

Definition book_rooms (available_rooms : gmap Z bool) (num_rooms : Z)
    : gmap Z bool * response :=
  if bool_decide (num_rooms > 5) then
    (available_rooms, Error MaxRoomsPerBooking)
  else if bool_decide (num_rooms <= 0) then
    (available_rooms, Error InvalidNumberOfRooms)
  else
    let '(best_single_floor, time_single) :=
      _find_best_rooms_single_floor available_rooms num_rooms in
    if bool_decide (best_single_floor = []) then
      let '(best_multi_floor, time_multi) :=
        _find_best_rooms_multi_floor available_rooms num_rooms in
      if bool_decide (best_multi_floor = []) then
        (available_rooms, Error NotEnoughRooms)
      else
        (mark_booked available_rooms best_multi_floor,
         Booked (Booking best_multi_floor time_multi MULTI_FLOOR))
    else
      (mark_booked available_rooms best_single_floor,
       Booked (Booking best_single_floor time_single SINGLE_FLOOR)).

(** The first loop of [book_specific_rooms]: the first room that is
    not a key or is mapped to [False], if there is one. *)
Fixpoint first_unavailable (available_rooms : gmap Z bool) (rooms : list Z)
    : option Z :=
  match rooms with
  | [] => None
  | room :: rest =>
      if bool_decide (available_rooms !! room = None)
         || negb (default false (available_rooms !! room))
      then Some room
      else first_unavailable available_rooms rest
  end.

Definition book_specific_rooms (available_rooms : gmap Z bool) (rooms : list Z)
    : gmap Z bool * response :=
  match first_unavailable available_rooms rooms with
  | Some room => (available_rooms, Error (RoomNotAvailable room))
  | None =>
      let travel_time :=
        if bool_decide (len rooms > 1) then
          let sorted_rooms := sorted rooms in
          _travel_time (first sorted_rooms) (final sorted_rooms)
        else 0 in
      let available_rooms' := mark_booked available_rooms rooms in
      let floors : gset Z := list_to_set ((λ room, room `div` 100) <$> rooms) in
      let booking_type :=
        if bool_decide (size floors = 1%nat) then SINGLE_FLOOR else MULTI_FLOOR in
      (available_rooms', Booked (Booking rooms (Finite travel_time) booking_type))
  end.

(** The loop of [cancel_booking]; [rooms] is the whole argument, kept
    for the message, [todo] what is left to visit. *)
Fixpoint cancel_loop (available_rooms : gmap Z bool) (rooms todo : list Z)
    : gmap Z bool * response :=
  match todo with
  | [] =>
      (available_rooms,
       Status true ("Successfully canceled booking for rooms: " +:+ str_list rooms))
  | room :: rest =>
      if bool_decide (is_Some (available_rooms !! room))
      then cancel_loop (<[room := true]> available_rooms) rooms rest
      else (available_rooms, Error (RoomNotValid room))
  end.

Definition cancel_booking (available_rooms : gmap Z bool) (rooms : list Z)
    : gmap Z bool * response :=
  cancel_loop available_rooms rooms rooms.

Definition get_available_rooms (available_rooms : gmap Z bool) : gmap Z bool :=
  available_rooms.

(** [random.choice([True, False])] is drawn once for each key;
    [choice room] is the value drawn on the iteration that visits
    [room]. *)
Definition generate_random_occupancy (choice : Z → bool)
    (available_rooms : gmap Z bool) : gmap Z bool * response :=
  (map_imap (λ room _, Some (choice room)) available_rooms,
   Status true "Random occupancy generated").

Definition reset (available_rooms : gmap Z bool) : gmap Z bool * response :=
  (_initialize_rooms, Status true "Hotel reset successfully").

End Hotel.

(** ** bookingRouter.py: the validator of [RoomSelectionRequest] *)

Module RoomSelectionRequest.

(** [validate_room_count]: [inl] is the raised [ValueError]. *)
Definition validate_room_count (v : list Z) : string + list Z :=
  if bool_decide (len v < 1) || bool_decide (len v > 5)
  then inl "Must select between 1 and 5 rooms"
  else inr v.

End RoomSelectionRequest.

Import Hotel.

(** ** Vocabulary of the properties *)

(** The identifiers of the fixed topology: floor*100 + index with the
    floor in 1..10 and the index in 1..10 on floors 1..9, in 1..7 on
    floor 10. *)
Definition valid_room (id : Z) : Prop :=
  ∃ floor index,
    1 ≤ floor ≤ 10
    ∧ 1 ≤ index ≤ (if decide (floor ≤ 9) then 10 else 7)
    ∧ id = floor * 100 + index.

(** The room numbers of a floor in the order the loops build them. *)
Definition floor_room_numbers (floor : Z) : list Z :=
  (λ room, floor * 100 + room) <$> range 1 (rooms_on floor + 1).

Definition all_room_numbers : list Z :=
  range 1 (floors + 1) ≫= floor_room_numbers.

(** The score both searches give to a candidate list of rooms. *)
Definition window_time (rooms : list Z) : Z :=
  _travel_time (first rooms) (final rooms).

(** The window of [num_rooms] rooms that starts at index [i] of the
    free-room list of [floor], and when [(floor, i)] is one the
    single-floor search visits. *)
Definition window (h : gmap Z bool) (num_rooms floor i : Z) : list Z :=
  slice (_get_available_rooms_on_floor h floor) i (i + num_rooms).

Definition is_window (h : gmap Z bool) (num_rooms floor i : Z) : Prop :=
  1 ≤ floor ≤ 10
  ∧ 0 ≤ i
  ∧ i + num_rooms ≤ len (_get_available_rooms_on_floor h floor).

(** Visiting order of the single-floor search: ascending floor, then
    ascending window start. *)
Definition earlier (a b : Z * Z) : Prop :=
  a.1 < b.1 ∨ (a.1 = b.1 ∧ a.2 < b.2).

(** The (floor, start) pairs the two nested loops of the single-floor
    search visit, in order. *)
Definition candidates (h : gmap Z bool) (num_rooms : Z) : list (Z * Z) :=
  range 1 (floors + 1) ≫= λ floor,
    let available := _get_available_rooms_on_floor h floor in
    if bool_decide (len available >= num_rooms)
    then (λ i, (floor, i)) <$> range 0 (len available - num_rooms + 1)
    else [].

(** One step of either window loop over an abstract candidate [c]
    whose rooms are [w c]. *)
Definition keep_better {C} (w : C → list Z)
    (best : list Z * minutes) (c : C) : list Z * minutes :=
  if lt_minutes (window_time (w c)) best.2
  then (w c, Finite (window_time (w c)))
  else best.

(** The list the multi-floor search collects: the free rooms of
    floors 1..10, floor by floor. *)
Definition all_free (h : gmap Z bool) : list Z :=
  range 1 (floors + 1) ≫= _get_available_rooms_on_floor h.

(** ** bookingRouter.py: the request models and the handlers

    The handlers share the module-level [hotel]; here they take its
    occupancy map and return the new one.  A handler either returns a
    body or raises [HTTPException]. *)

Module bookingRouter.

(** [num_rooms: int = Field(..., ge=1, le=5)] of [BookingRequest]. *)
Definition BookingRequest_accepts (num_rooms : Z) : bool :=
  bool_decide (num_rooms >= 1) && bool_decide (num_rooms <= 5).

Inductive reply :=
| Return (body : response)
| HTTPException (status_code : Z) (detail : string).

(** [if "error" in result: raise HTTPException(400, result["error"])],
    else [return result]. *)
Definition raise_on_error (result : response) : reply :=
  match result with
  | Error e => HTTPException 400 (error_message e)
  | _ => Return result
  end.

(** [POST /book] *)
Definition book_rooms (hotel : gmap Z bool) (num_rooms : Z)
    : gmap Z bool * reply :=
  let '(hotel, result) := Hotel.book_rooms hotel num_rooms in
  (hotel, raise_on_error result).

(** [POST /book-selected] *)
Definition book_selected_rooms (hotel : gmap Z bool) (rooms : list Z)
    : gmap Z bool * reply :=
  let '(hotel, result) := Hotel.book_specific_rooms hotel rooms in
  (hotel, raise_on_error result).

(** [POST /cancel]: on success the acknowledgment is built again from
    [request.rooms]. *)
Definition cancel_booking (hotel : gmap Z bool) (rooms : list Z)
    : gmap Z bool * reply :=
  let '(hotel, result) := Hotel.cancel_booking hotel rooms in
  match result with
  | Error e => (hotel, HTTPException 400 (error_message e))
  | _ =>
      (hotel,
       Return (Status true ("Successfully canceled booking for rooms: "
                            +:+ str_list rooms)))
  end.

End bookingRouter.

(** A hotel in which only rooms 110 and 201 are left free, reached
    from the fresh one by booking every other room by name. *)
Definition nearly_full : gmap Z bool :=
  (book_specific_rooms _initialize_rooms
     (filter (λ r, r ≠ 110 ∧ r ≠ 201) all_room_numbers)).1.

(** ** Concrete runs *)

Example fresh_book_3 :
  (book_rooms _initialize_rooms 3).2
  = Booked (Booking [101; 102; 103] (Finite 2) SINGLE_FLOOR).
Proof. vm_compute. reflexivity. Qed.

Example fresh_book_specific_101_205 :
  (book_specific_rooms _initialize_rooms [101; 205]).2
  = Booked (Booking [101; 205] (Finite 6) MULTI_FLOOR).
Proof. vm_compute. reflexivity. Qed.

Example fresh_cancel_999 :
  cancel_booking _initialize_rooms [999]
  = (_initialize_rooms, Error (RoomNotValid 999)).
Proof. vm_compute. reflexivity. Qed.

(** ** The dictionary updates *)

Section updates.
Implicit Types (h : gmap Z bool) (rooms todo : list Z) (r room : Z).

(** Assigning [v] to every key of a list, as the booking and
    cancelling loops do. *)
Lemma assign_all_lookup (v : bool) h rooms r :
  foldl (λ available room, <[room := v]> available) h rooms !! r
  = if decide (r ∈ rooms) then Some v else h !! r.
Proof.
  revert h. induction rooms as [|x rooms IH]; intros h.
  - done.
  - cbn [foldl]. rewrite IH.
    destruct (decide (r ∈ rooms)) as [Hin|Hin].
    + rewrite decide_True; [done|]. by apply list_elem_of_further.
    + destruct (decide (r = x)) as [->|Hne].
      * rewrite decide_True by apply list_elem_of_here.
        by rewrite lookup_insert_eq.
      * rewrite decide_False.
        { by rewrite lookup_insert_ne. }
        intros [?|?]%elem_of_cons; done.
Qed.

Lemma assign_all_dom (v : bool) h rooms :
  Forall (λ r, is_Some (h !! r)) rooms →
  dom (foldl (λ available room, <[room := v]> available) h rooms) = dom h.
Proof.
  revert h. induction rooms as [|x rooms IH]; intros h Hkeys; simpl; [done|].
  apply Forall_cons in Hkeys as [Hx Hrest].
  rewrite IH.
  - by apply dom_insert_lookup_L.
  - eapply Forall_impl; [exact Hrest|]. intros r Hr. simpl.
    rewrite lookup_insert_is_Some. destruct (decide (x = r)); auto.
Qed.

Lemma mark_booked_lookup h rooms r :
  mark_booked h rooms !! r = if decide (r ∈ rooms) then Some false else h !! r.
Proof. apply assign_all_lookup. Qed.

Lemma first_unavailable_spec h rooms :
  match first_unavailable h rooms with
  | None => Forall (λ r, h !! r = Some true) rooms
  | Some r =>
      ∃ pre post, rooms = pre ++ r :: post
                  ∧ Forall (λ x, h !! x = Some true) pre
                  ∧ (h !! r = None ∨ h !! r = Some false)
  end.
Proof.
  induction rooms as [|x rooms IH]; simpl; [constructor|].
  destruct (h !! x) as [[]|] eqn:Hx; simpl.
  - destruct (first_unavailable h rooms) as [r|].
    + destruct IH as (pre & post & -> & Hpre & Hr).
      exists (x :: pre), post. split_and!; [done| by constructor |done].
    + by constructor.
  - exists [], rooms. split_and!; [done|constructor|by right].
  - exists [], rooms. split_and!; [done|constructor|by left].
Qed.

Lemma first_unavailable_all_free h rooms :
  Forall (λ r, h !! r = Some true) rooms → first_unavailable h rooms = None.
Proof.
  induction 1 as [|x rooms Hx _ IH]; [done|].
  cbn [first_unavailable]. rewrite Hx. exact IH.
Qed.

Lemma travel_time_same r : _travel_time r r = 0.
Proof. unfold _travel_time. lia. Qed.

Lemma sorted_pair_same r : sorted [r; r] = [r; r].
Proof.
  unfold sorted, merge_sort. cbn [merge_sort_aux merge_stack merge_list_to_stack].
  cbn [list_merge]. by rewrite decide_True by lia.
Qed.

(** The cancelling loop stops at the first identifier that is not a
    key, and by then has already freed the ones before it. *)
Lemma cancel_loop_stops h rooms pre r post :
  Forall (λ x, is_Some (h !! x)) pre →
  h !! r = None →
  cancel_loop h rooms (pre ++ r :: post)
  = (foldl (λ available room, <[room := true]> available) h pre,
     Error (RoomNotValid r)).
Proof.
  revert h. induction pre as [|x pre IH]; intros h Hpre Hr; simpl.
  - rewrite bool_decide_eq_false_2; [done|]. rewrite Hr. by intros [? ?].
  - apply Forall_cons in Hpre as [Hx Hpre].
    rewrite bool_decide_eq_true_2 by done. apply IH.
    + eapply Forall_impl; [exact Hpre|]. intros y Hy. simpl.
      rewrite lookup_insert_is_Some. destruct (decide (x = y)); auto.
    + rewrite lookup_insert_ne; [done|]. intros ->. rewrite Hr in Hx.
      by destruct Hx.
Qed.

Lemma cancel_loop_all_keys h rooms todo :
  Forall (λ r, is_Some (h !! r)) todo →
  cancel_loop h rooms todo
  = (foldl (λ available room, <[room := true]> available) h todo,
     Status true ("Successfully canceled booking for rooms: " +:+ str_list rooms)).
Proof.
  revert h. induction todo as [|x todo IH]; intros h Hkeys; simpl; [done|].
  apply Forall_cons in Hkeys as [Hx Hrest].
  rewrite bool_decide_eq_true_2 by done. apply IH.
  eapply Forall_impl; [exact Hrest|]. intros y Hy. simpl.
  rewrite lookup_insert_is_Some. destruct (decide (x = y)); auto.
Qed.

Lemma cancel_loop_dom h rooms todo :
  dom (cancel_loop h rooms todo).1 = dom h.
Proof.
  revert h. induction todo as [|x todo IH]; intros h; simpl; [done|].
  case_bool_decide as Hx; [|done].
  rewrite IH. by apply dom_insert_lookup_L.
Qed.

End updates.

(** ** The topology and the free-room lists *)

Lemma foldl_bind {A B C} (f : A → B → A) (g : C → list B) (a : A) (l : list C) :
  foldl f a (l ≫= g) = foldl (λ a x, foldl f a (g x)) a l.
Proof.
  revert a. induction l as [|x l IH]; intros a; [done|].
  rewrite bind_cons, foldl_app. cbn [foldl]. apply IH.
Qed.

Lemma elem_of_range (k start stop : Z) : k ∈ range start stop ↔ start ≤ k < stop.
Proof. unfold range. rewrite elem_of_seqZ. lia. Qed.

Lemma range_sorted (start stop : Z) : StronglySorted Z.lt (range start stop).
Proof.
  unfold range. generalize (stop - start). intros n.
  destruct (decide (n ≤ 0)) as [Hn|Hn].
  { rewrite seqZ_nil by done. constructor. }
  replace n with (Z.of_nat (Z.to_nat n)) by lia.
  revert start. induction (Z.to_nat n) as [|k IH]; intros start.
  { rewrite seqZ_nil by lia. constructor. }
  rewrite seqZ_cons by lia. constructor.
  - replace (Z.pred (Z.of_nat (S k))) with (Z.of_nat k) by lia. apply IH.
  - apply Forall_seqZ. lia.
Qed.

Lemma filter_sorted {A} (R : relation A) (P : A → Prop)
    `{!∀ x, Decision (P x)} (l : list A) :
  StronglySorted R l → StronglySorted R (filter P l).
Proof.
  induction 1 as [|x l Hl IH Hx]; [constructor|].
  rewrite filter_cons. case_decide; [|done].
  constructor; [done|]. apply Forall_forall.
  intros y [_ Hy]%list_elem_of_filter. rewrite Forall_forall in Hx. auto.
Qed.

Section topology.
Implicit Types (h : gmap Z bool) (floor id r : Z).

Lemma rooms_on_floor floor :
  1 ≤ floor ≤ 10 → rooms_on floor = if decide (floor ≤ 9) then 10 else 7.
Proof.
  intros Hfloor.
  assert (floor = 1 ∨ floor = 2 ∨ floor = 3 ∨ floor = 4 ∨ floor = 5
          ∨ floor = 6 ∨ floor = 7 ∨ floor = 8 ∨ floor = 9 ∨ floor = 10)
    as Hcases by lia.
  destruct_or!; subst floor; reflexivity.
Qed.

(** The index [floor - 1] is in range on every floor the loops visit. *)
Lemma rooms_per_floor_lookup floor :
  floor ∈ range 1 (floors + 1) →
  rooms_per_floor !! Z.to_nat (floor - 1) = Some (rooms_on floor).
Proof.
  rewrite elem_of_range. unfold floors. intros Hfloor.
  assert (floor = 1 ∨ floor = 2 ∨ floor = 3 ∨ floor = 4 ∨ floor = 5
          ∨ floor = 6 ∨ floor = 7 ∨ floor = 8 ∨ floor = 9 ∨ floor = 10)
    as Hcases by lia.
  destruct_or!; subst floor; reflexivity.
Qed.

Lemma elem_of_floor_room_numbers floor id :
  id ∈ floor_room_numbers floor
  ↔ ∃ index, 1 ≤ index ≤ rooms_on floor ∧ id = floor * 100 + index.
Proof.
  unfold floor_room_numbers. rewrite list_elem_of_fmap.
  setoid_rewrite elem_of_range. split.
  - intros (index & -> & Hindex). exists index. split; [lia|done].
  - intros (index & Hindex & ->). exists index. split; [done|lia].
Qed.

Lemma elem_of_all_room_numbers id : id ∈ all_room_numbers ↔ valid_room id.
Proof.
  unfold all_room_numbers, valid_room. rewrite list_elem_of_bind.
  setoid_rewrite elem_of_range. setoid_rewrite elem_of_floor_room_numbers.
  unfold floors. split.
  - intros (floor & (index & Hindex & ->) & Hfloor).
    exists floor, index. rewrite <- rooms_on_floor by lia.
    split_and!; [lia|lia|lia|lia|done].
  - intros (floor & index & Hfloor & Hindex & ->).
    rewrite <- rooms_on_floor in Hindex by lia.
    exists floor. split; [|lia]. by exists index.
Qed.

Lemma initialize_rooms_assign :
  _initialize_rooms
  = foldl (λ available room, <[room := true]> available) ∅ all_room_numbers.
Proof.
  unfold _initialize_rooms, all_room_numbers. generalize (∅ : gmap Z bool).
  induction (range 1 (floors + 1)) as [|floor fl IH]; intros m; [done|].
  rewrite bind_cons, foldl_app. cbn [foldl]. rewrite IH. f_equal.
  unfold floor_room_numbers. by rewrite foldl_fmap.
Qed.

Lemma initialize_rooms_lookup id :
  _initialize_rooms !! id
  = if decide (id ∈ all_room_numbers) then Some true else None.
Proof. rewrite initialize_rooms_assign. apply assign_all_lookup. Qed.

Lemma initialize_rooms_keys id :
  is_Some (_initialize_rooms !! id) ↔ valid_room id.
Proof.
  rewrite initialize_rooms_lookup, <- elem_of_all_room_numbers.
  case_decide as Hin; split; intros H'; [done|by eexists|by destruct H'|done].
Qed.

(** The list built by appending in a loop is the filter of the
    floor's room numbers by "mapped to [True]". *)
Lemma get_available_filter h floor :
  _get_available_rooms_on_floor h floor
  = filter (λ r, h !! r = Some true) (floor_room_numbers floor).
Proof.
  unfold _get_available_rooms_on_floor, floor_room_numbers.
  enough (∀ l acc,
    foldl (λ floor_rooms room,
             if default false (h !! (floor * 100 + room))
             then floor_rooms ++ [floor * 100 + room] else floor_rooms) acc l
    = acc ++ filter (λ r, h !! r = Some true) ((λ room, floor * 100 + room) <$> l))
    as Hgen by apply Hgen.
  induction l as [|room l IH]; intros acc.
  { cbn. by rewrite app_nil_r. }
  cbn [foldl]. rewrite IH, fmap_cons, filter_cons.
  destruct (h !! (floor * 100 + room)) as [[]|] eqn:Hroom; cbn [default].
  - rewrite decide_True by done. cbn. by rewrite <- (assoc_L (++)).
  - by rewrite decide_False by done.
  - by rewrite decide_False by done.
Qed.

Lemma elem_of_get_available h floor r :
  r ∈ _get_available_rooms_on_floor h floor
  ↔ h !! r = Some true
    ∧ ∃ index, 1 ≤ index ≤ rooms_on floor ∧ r = floor * 100 + index.
Proof.
  rewrite get_available_filter, list_elem_of_filter.
  by rewrite elem_of_floor_room_numbers.
Qed.

Lemma get_available_free h floor :
  Forall (λ r, h !! r = Some true) (_get_available_rooms_on_floor h floor).
Proof. apply Forall_forall. intros r Hr. by apply elem_of_get_available in Hr as [? _]. Qed.

Lemma get_available_floor h floor r :
  1 ≤ floor ≤ 10 →
  r ∈ _get_available_rooms_on_floor h floor → r `div` 100 = floor.
Proof.
  intros Hfloor (_ & index & Hindex & ->)%elem_of_get_available.
  rewrite rooms_on_floor in Hindex by done.
  assert (1 ≤ index ≤ 10) by (case_decide; lia).
  symmetry. apply (Z.div_unique_pos _ 100 floor index); lia.
Qed.

(** The free rooms of a floor come in ascending position. *)
Lemma get_available_sorted h floor :
  StronglySorted Z.lt (_get_available_rooms_on_floor h floor).
Proof.
  rewrite get_available_filter. apply filter_sorted.
  unfold floor_room_numbers.
  apply (StronglySorted_fmap _ Z.lt Z.lt); [|apply range_sorted].
  intros a b Hab. lia.
Qed.

End topology.

(** ** Slices and the window loop *)

Lemma foldl_ext_all {A B} (f g : A → B → A) (a : A) (l : list B) :
  (∀ a x, f a x = g a x) → foldl f a l = foldl g a l.
Proof.
  intros Hfg. revert a. induction l as [|x l IH]; intros a; [done|].
  cbn [foldl]. by rewrite Hfg, IH.
Qed.

Lemma bind_sorted {A B} (R1 : relation A) (R2 : relation B)
    (g : A → list B) (l : list A) :
  StronglySorted R1 l →
  (∀ x, StronglySorted R2 (g x)) →
  (∀ x y a b, R1 x y → a ∈ g x → b ∈ g y → R2 a b) →
  StronglySorted R2 (l ≫= g).
Proof.
  intros Hl Hg Hcross. induction Hl as [|x l Hl IH Hx]; [constructor|].
  rewrite bind_cons. apply StronglySorted_app_2; [|apply Hg|apply IH].
  intros a b Ha (y & Hb & Hy)%list_elem_of_bind.
  rewrite Forall_forall in Hx. eapply Hcross; [by apply Hx|done|done].
Qed.

Section slices.
Context {A : Type}.
Implicit Types (l : list A) (i n : Z).

Lemma slice_length l i n :
  0 ≤ i → 0 ≤ n → i + n ≤ len l → length (slice l i (i + n)) = Z.to_nat n.
Proof.
  unfold slice, len. intros Hi Hn Hlen.
  rewrite length_drop, length_take. lia.
Qed.

Lemma slice_subseteq l i j : slice l i j ⊆ l.
Proof.
  unfold slice. intros x Hx.
  by apply subseteq_drop, subseteq_take in Hx.
Qed.

(** With [num_rooms >= 1] every window the loops score has a first
    and a last element. *)
Lemma slice_nonempty l i n :
  0 ≤ i → 1 ≤ n → i + n ≤ len l → slice l i (i + n) ≠ [].
Proof.
  intros Hi Hn Hlen Hnil.
  pose proof (slice_length l i n Hi ltac:(lia) Hlen) as Hlength.
  rewrite Hnil in Hlength. cbn in Hlength. lia.
Qed.

(** Hence [rooms[0]] and [rooms[-1]] never raise in the window
    loops: the guard [len(l) >= n] (or [not len(l) < n]) holds when
    they run, and [i] is drawn from [range(len(l) - n + 1)]. *)
Lemma visited_window_nonempty l i n :
  1 ≤ n → i ∈ range 0 (len l - n + 1) → slice l i (i + n) ≠ [].
Proof.
  intros Hn Hi%elem_of_range. apply slice_nonempty; lia.
Qed.

End slices.

(** [sorted_rooms[0]] and [sorted_rooms[-1]] in [book_specific_rooms]
    are read only when [len(rooms) > 1]. *)
Lemma sorted_nonempty (rooms : list Z) : len rooms > 1 → sorted rooms ≠ [].
Proof.
  unfold len, sorted. intros Hlen Hnil.
  pose proof (Permutation_length (merge_sort_Permutation Z.le rooms)) as Hperm.
  rewrite Hnil in Hperm. cbn in Hperm. lia.
Qed.

Section scan.
Context {C : Type} (w : C → list Z).

(** A loop that keeps a candidate only when it is strictly better
    ends on the first candidate of least score. *)
Lemma scan_first_minimum (cs : list C) :
  cs ≠ [] →
  ∃ pre c post,
    cs = pre ++ c :: post
    ∧ foldl (keep_better w) ([], Infinity) cs
      = (w c, Finite (window_time (w c)))
    ∧ Forall (λ c', window_time (w c) < window_time (w c')) pre
    ∧ Forall (λ c', window_time (w c) ≤ window_time (w c')) post.
Proof.
  induction cs as [|x cs IH] using rev_ind; [done|]. intros _.
  rewrite foldl_app. cbn [foldl].
  destruct cs as [|c0 cs'].
  - exists [], x, []. split_and!; [done|done|constructor|constructor].
  - destruct IH as (pre & c & post & Heq & Hres & Hpre & Hpost); [done|].
    rewrite Hres. unfold keep_better. cbn [snd lt_minutes].
    case_bool_decide as Hlt.
    + exists (c0 :: cs'), x, []. rewrite Heq.
      split_and!; [done|done| |constructor].
      apply Forall_app. split; [|constructor].
      * eapply Forall_impl; [exact Hpre|]. intros c' Hc'. simpl in Hc'. lia.
      * lia.
      * eapply Forall_impl; [exact Hpost|]. intros c' Hc'. simpl in Hc'. lia.
    + exists pre, c, (post ++ [x]). rewrite Heq.
      split_and!; [by rewrite <- (assoc_L (++))|done|done|].
      apply Forall_app. split; [done|]. constructor; [lia|constructor].
Qed.

End scan.

Section searches.
Implicit Types (h : gmap Z bool) (n floor i r : Z).

Lemma try_window_keep_better (available : list Z) n best i :
  try_window available n best i
  = keep_better (λ i, slice available i (i + n)) best i.
Proof. by destruct best. Qed.

(** The two nested loops of the single-floor search are one pass over
    [candidates]. *)
Lemma find_single_scan h n :
  _find_best_rooms_single_floor h n
  = foldl (keep_better (λ c, window h n c.1 c.2)) ([], Infinity) (candidates h n).
Proof.
  unfold _find_best_rooms_single_floor, candidates.
  rewrite foldl_bind. apply foldl_ext_all. intros best floor. cbn zeta.
  case_bool_decide; [|done].
  rewrite foldl_fmap. apply foldl_ext_all. intros best' i.
  by rewrite try_window_keep_better.
Qed.

Lemma elem_of_candidates h n floor i :
  (floor, i) ∈ candidates h n ↔ is_window h n floor i.
Proof.
  unfold candidates, is_window, floors. rewrite list_elem_of_bind. split.
  - intros (floor' & Hin & Hfloor%elem_of_range). cbn zeta in Hin.
    case_bool_decide; [|by apply elem_of_nil in Hin].
    apply list_elem_of_fmap in Hin as (i' & [= -> ->] & Hi%elem_of_range).
    lia.
  - intros (Hfloor & Hi & Hlen). exists floor. rewrite elem_of_range.
    split; [|lia]. cbn zeta. rewrite bool_decide_eq_true_2 by lia.
    apply list_elem_of_fmap. exists i. rewrite elem_of_range. split; [done|lia].
Qed.

Lemma candidates_sorted h n : StronglySorted earlier (candidates h n).
Proof.
  unfold candidates. apply (bind_sorted Z.lt); [apply range_sorted| |].
  - intros floor. cbn zeta. case_bool_decide; [|constructor].
    apply (StronglySorted_fmap _ Z.lt); [|apply range_sorted].
    intros a b Hab. right. done.
  - intros x y a b Hxy Ha Hb. left. cbn zeta in Ha, Hb.
    repeat case_bool_decide;
      try (by apply elem_of_nil in Ha); try (by apply elem_of_nil in Hb).
    apply list_elem_of_fmap in Ha as (? & -> & _).
    apply list_elem_of_fmap in Hb as (? & -> & _). done.
Qed.

Lemma candidates_nonempty h n :
  1 ≤ n →
  candidates h n ≠ []
  ↔ ∃ floor, 1 ≤ floor ≤ 10 ∧ n ≤ len (_get_available_rooms_on_floor h floor).
Proof.
  intros Hn. split.
  - destruct (candidates h n) as [|[floor i] cs] eqn:Hcs; [done|]. intros _.
    assert ((floor, i) ∈ candidates h n) as Hin
      by (rewrite Hcs; apply list_elem_of_here).
    apply elem_of_candidates in Hin as (Hfloor & Hi & Hlen).
    exists floor. split; [done|lia].
  - intros (floor & Hfloor & Hlen) Hnil.
    assert ((floor, 0) ∈ candidates h n) as Hin.
    { apply elem_of_candidates. split_and!; [lia|lia|done|lia]. }
    rewrite Hnil in Hin. by apply elem_of_nil in Hin.
Qed.

Lemma window_free h n floor i :
  Forall (λ r, h !! r = Some true) (window h n floor i).
Proof.
  apply Forall_forall. intros r Hr%slice_subseteq.
  by apply elem_of_get_available in Hr as [? _].
Qed.

Lemma window_floor h n floor i :
  1 ≤ floor ≤ 10 → Forall (λ r, r `div` 100 = floor) (window h n floor i).
Proof.
  intros Hfloor. apply Forall_forall. intros r Hr%slice_subseteq.
  by eapply get_available_floor.
Qed.

Lemma earlier_asym (a b : Z * Z) : earlier a b → earlier b a → False.
Proof. unfold earlier. lia. Qed.

(** The single-floor search, when some window exists: it returns the
    first window, in visiting order, of least travel time. *)
Lemma find_single_first_minimum h n :
  candidates h n ≠ [] →
  ∃ floor i,
    is_window h n floor i
    ∧ _find_best_rooms_single_floor h n
      = (window h n floor i, Finite (window_time (window h n floor i)))
    ∧ ∀ floor' i',
        is_window h n floor' i' →
        window_time (window h n floor i) ≤ window_time (window h n floor' i')
        ∧ (earlier (floor', i') (floor, i) →
           window_time (window h n floor i) < window_time (window h n floor' i')).
Proof.
  intros Hcs. rewrite find_single_scan.
  destruct (scan_first_minimum (λ c, window h n c.1 c.2) _ Hcs)
    as (pre & [floor i] & post & Heq & Hres & Hpre & Hpost).
  exists floor, i. cbn [fst snd] in *. split_and!; [|done|].
  { apply elem_of_candidates. rewrite Heq.
    apply elem_of_app. right. apply list_elem_of_here. }
  intros floor' i' Hwin%elem_of_candidates.
  pose proof (candidates_sorted h n) as Hsorted.
  rewrite Heq in Hwin, Hsorted.
  rewrite Forall_forall in Hpre. rewrite Forall_forall in Hpost.
  apply StronglySorted_app in Hsorted as (_ & _ & Hsorted).
  apply StronglySorted_cons in Hsorted as [Hafter _].
  rewrite Forall_forall in Hafter.
  apply elem_of_app in Hwin as [Hin|Hin].
  { specialize (Hpre _ Hin). cbn [fst snd] in Hpre. split; [lia|done]. }
  apply elem_of_cons in Hin as [[= -> ->]|Hin].
  { split; [lia|]. intros Hearlier. destruct (earlier_asym _ _ Hearlier Hearlier). }
  pose proof (Hpost _ Hin) as Hle. cbn [fst snd] in Hle. split; [done|].
  intros Hearlier. destruct (earlier_asym _ _ Hearlier (Hafter _ Hin)).
Qed.

Lemma find_single_none h n :
  candidates h n = [] → _find_best_rooms_single_floor h n = ([], Infinity).
Proof. intros Hcs. by rewrite find_single_scan, Hcs. Qed.

Lemma find_single_free h n :
  Forall (λ r, h !! r = Some true) (_find_best_rooms_single_floor h n).1.
Proof.
  destruct (candidates h n) as [|c cs] eqn:Hcs.
  { rewrite find_single_none by done. constructor. }
  destruct (find_single_first_minimum h n) as (floor & i & _ & -> & _).
  { by rewrite Hcs. }
  apply window_free.
Qed.

(** The list the multi-floor search collects. *)
Lemma collect_all_available h (fl : list Z) :
  foldl (λ all_available floor,
           all_available ++ _get_available_rooms_on_floor h floor) [] fl
  = fl ≫= _get_available_rooms_on_floor h.
Proof.
  rewrite <- (app_nil_l (fl ≫= _)). generalize (@nil Z).
  induction fl as [|floor fl IH]; intros acc.
  { cbn. by rewrite app_nil_r. }
  cbn [foldl]. by rewrite IH, bind_cons, (assoc_L (++)).
Qed.

Lemma find_multi_free h n :
  Forall (λ r, h !! r = Some true) (_find_best_rooms_multi_floor h n).1.
Proof.
  unfold _find_best_rooms_multi_floor. rewrite collect_all_available.
  cbn zeta. case_bool_decide; [constructor|].
  set (all_available := sorted _).
  rewrite (foldl_ext_all _ _ _ _ (try_window_keep_better all_available n)).
  destruct (range 0 (len all_available - n + 1)) as [|i0 cs] eqn:Hcs;
    [constructor|].
  destruct (scan_first_minimum (λ i, slice all_available i (i + n)) (i0 :: cs))
    as (_ & i & _ & _ & -> & _); [done|].
  apply Forall_forall. intros r Hr%slice_subseteq.
  unfold all_available, sorted in Hr. rewrite merge_sort_Permutation in Hr.
  apply list_elem_of_bind in Hr as (floor & Hr & _).
  by apply elem_of_get_available in Hr as [? _].
Qed.

(** What a successful automatic booking did. *)
Lemma book_rooms_booked h n h' b :
  book_rooms h n = (h', Booked b) →
  1 ≤ n ≤ 5
  ∧ h' = mark_booked h (booked_rooms b)
  ∧ Forall (λ r, h !! r = Some true) (booked_rooms b).
Proof.
  unfold book_rooms. intros Hbook.
  pose proof (find_single_free h n) as Hsingle.
  pose proof (find_multi_free h n) as Hmulti.
  destruct (_find_best_rooms_single_floor h n) as [single t1].
  destruct (_find_best_rooms_multi_floor h n) as [multi t2].
  repeat case_bool_decide; simplify_eq; cbn [booked_rooms];
    (split_and!; [lia|lia|done|done]).
Qed.

Lemma book_rooms_dom h n : dom (book_rooms h n).1 = dom h.
Proof.
  destruct (book_rooms h n) as [h' [e|b|ok msg]] eqn:Hbook.
  - unfold book_rooms in Hbook.
    destruct (_find_best_rooms_single_floor h n) as [single t1].
    destruct (_find_best_rooms_multi_floor h n) as [multi t2].
    repeat case_bool_decide; by simplify_eq.
  - apply book_rooms_booked in Hbook as (_ & -> & Hfree).
    apply assign_all_dom. eapply Forall_impl; [exact Hfree|].
    intros r Hr. by rewrite Hr.
  - unfold book_rooms in Hbook.
    destruct (_find_best_rooms_single_floor h n) as [single t1].
    destruct (_find_best_rooms_multi_floor h n) as [multi t2].
    repeat case_bool_decide; by simplify_eq.
Qed.

(** The score of a window of [n] rooms is the travel time between
    its elements of index 0 and [n - 1]. *)
Lemma window_endpoints (rooms : list Z) n :
  1 ≤ n → length rooms = Z.to_nat n →
  ∃ a b, rooms !! 0%nat = Some a
         ∧ rooms !! Z.to_nat (n - 1) = Some b
         ∧ window_time rooms = _travel_time a b.
Proof.
  intros Hn Hlen.
  destruct (lookup_lt_is_Some_2 rooms 0%nat) as [a Ha]; [lia|].
  destruct (lookup_lt_is_Some_2 rooms (Z.to_nat (n - 1))) as [b Hb]; [lia|].
  exists a, b. split_and!; [done|done|].
  unfold window_time, first, final.
  rewrite head_lookup, Ha, last_lookup, Hlen.
  replace (pred (Z.to_nat n)) with (Z.to_nat (n - 1)) by lia.
  by rewrite Hb.
Qed.

Lemma specific_dom h rooms : dom (book_specific_rooms h rooms).1 = dom h.
Proof.
  unfold book_specific_rooms.
  pose proof (first_unavailable_spec h rooms) as Hspec.
  destruct (first_unavailable h rooms); [done|]. cbn [fst].
  apply assign_all_dom. eapply Forall_impl; [exact Hspec|].
  intros r Hr. by rewrite Hr.
Qed.

Lemma randomize_dom choice h :
  dom (generate_random_occupancy choice h).1 = dom h.
Proof.
  unfold generate_random_occupancy. cbn [fst]. apply dom_imap_L.
  intros room. rewrite elem_of_dom. split.
  - intros [x Hx]. exists x. split; [done|by eexists].
  - intros (x & Hx & _). by exists x.
Qed.

End searches.

(** ** Properties of the engine *)

(** C8: the travel time of two rooms is twice the floor distance plus
    the position distance, with floor = id div 100 and position =
    id mod 100; it is symmetric, and zero from a room to itself. *)
Theorem travel_time_metric (a b : Z) :
  _travel_time a b
  = 2 * Z.abs (a `div` 100 - b `div` 100) + Z.abs (a `mod` 100 - b `mod` 100)
  ∧ _travel_time a b = _travel_time b a
  ∧ _travel_time a a = 0.
Proof. unfold _travel_time. split_and!; lia. Qed.

(** C7: a request for fewer than 1 or more than 5 rooms is answered
    with an error of class InvalidRequest, and the occupancy map is
    returned as it was. *)
Theorem book_rooms_rejects_bad_count (h : gmap Z bool) (n : Z) :
  n < 1 ∨ n > 5 →
  ∃ e, book_rooms h n = (h, Error e) ∧ classify e = InvalidRequest.
Proof.
  intros Hn. unfold book_rooms.
  destruct (decide (n > 5)) as [Hbig|Hsmall].
  - rewrite bool_decide_eq_true_2 by done. by exists MaxRoomsPerBooking.
  - rewrite bool_decide_eq_false_2 by done.
    rewrite bool_decide_eq_true_2 by lia. by exists InvalidNumberOfRooms.
Qed.

Lemma book_rooms_rejects_bad_count_witness :
  ∃ e, book_rooms _initialize_rooms 6 = (_initialize_rooms, Error e)
       ∧ classify e = InvalidRequest.
Proof. apply (book_rooms_rejects_bad_count _initialize_rooms 6). right. lia. Defined.

(** C1 (the code departs from it): on the hotel where room 101 is
    booked, cancelling the batch [101, 999] reports the unknown room 999
    but has already freed room 101: the failed call changed the map. *)
Theorem cancel_booking_partial_commit :
  let h := (book_specific_rooms _initialize_rooms [101]).1 in
  h !! 101 = Some false
  ∧ h !! 999 = None
  ∧ cancel_booking h [101; 999] = (<[101 := true]> h, Error (RoomNotValid 999))
  ∧ (cancel_booking h [101; 999]).1 !! 101 = Some true.
Proof. vm_compute. done. Qed.

(** C2 as stated fails: room 999 is outside the topology, and booking
    it on the fresh hotel gives the "is not available" error, whose
    class is RoomUnavailable, not UnknownRoom. *)
Lemma book_specific_unknown_room_not_distinguished :
  _initialize_rooms !! 999 = None
  ∧ book_specific_rooms _initialize_rooms [999]
    = (_initialize_rooms, Error (RoomNotAvailable 999))
  ∧ classify (RoomNotAvailable 999) ≠ UnknownRoom.
Proof. vm_compute. done. Qed.

(** C2, amended: when some requested room is unknown or occupied, the
    call fails without changing the map, and the error names the first
    such room of the list; the error is the same "is not available"
    one (class RoomUnavailable) in both cases. *)
Theorem book_specific_rooms_rejects (h : gmap Z bool) (rooms : list Z) :
  Exists (λ r, h !! r = None ∨ h !! r = Some false) rooms →
  ∃ pre r post,
    rooms = pre ++ r :: post
    ∧ Forall (λ x, h !! x = Some true) pre
    ∧ (h !! r = None ∨ h !! r = Some false)
    ∧ book_specific_rooms h rooms = (h, Error (RoomNotAvailable r))
    ∧ classify (RoomNotAvailable r) = RoomUnavailable.
Proof.
  intros Hbad. unfold book_specific_rooms.
  pose proof (first_unavailable_spec h rooms) as Hspec.
  destruct (first_unavailable h rooms) as [r|].
  - destruct Hspec as (pre & post & -> & Hpre & Hr).
    exists pre, r, post. by split_and!.
  - exfalso. apply Exists_exists in Hbad as (r & Hin & Hr).
    rewrite Forall_forall in Hspec. specialize (Hspec r Hin).
    destruct Hr as [Hr|Hr]; congruence.
Qed.

Lemma book_specific_rooms_rejects_witness :
  ∃ pre r post,
    [101; 999; 102] = pre ++ r :: post
    ∧ Forall (λ x, _initialize_rooms !! x = Some true) pre
    ∧ (_initialize_rooms !! r = None ∨ _initialize_rooms !! r = Some false)
    ∧ book_specific_rooms _initialize_rooms [101; 999; 102]
      = (_initialize_rooms, Error (RoomNotAvailable r))
    ∧ classify (RoomNotAvailable r) = RoomUnavailable.
Proof.
  apply (book_specific_rooms_rejects _initialize_rooms [101; 999; 102]).
  apply Exists_cons_tl, Exists_cons_hd. left. vm_compute. reflexivity.
Defined.

(** C10: a list that names the same free room twice passes the
    router's validator and is booked: the room becomes occupied and the
    answer lists it twice, in the caller's order. *)
Theorem book_specific_rooms_duplicate (h : gmap Z bool) (r : Z) :
  h !! r = Some true →
  RoomSelectionRequest.validate_room_count [r; r] = inr [r; r]
  ∧ book_specific_rooms h [r; r]
    = (<[r := false]> h, Booked (Booking [r; r] (Finite 0) SINGLE_FLOOR))
  ∧ (book_specific_rooms h [r; r]).1 !! r = Some false.
Proof.
  intros Hfree.
  assert (book_specific_rooms h [r; r]
          = (<[r := false]> h, Booked (Booking [r; r] (Finite 0) SINGLE_FLOOR)))
    as Heq.
  { unfold book_specific_rooms.
    rewrite first_unavailable_all_free by (by repeat constructor).
    rewrite sorted_pair_same.
    assert (list_to_set ((λ room, room `div` 100) <$> [r; r])
            =@{gset Z} {[ r `div` 100 ]}) as ->.
    { cbn [fmap list_fmap list_to_set].
      by rewrite (right_id_L ∅ (∪)), (idemp_L (∪)). }
    rewrite size_singleton.
    unfold mark_booked. cbn [foldl]. rewrite insert_insert_eq.
    unfold first, final. cbn [head last default].
    rewrite bool_decide_eq_true_2 by (unfold len; cbn; lia).
    rewrite bool_decide_eq_true_2 by done.
    by rewrite travel_time_same. }
  split_and!; [done|done|]. rewrite Heq. simpl. apply lookup_insert_eq.
Qed.

Lemma book_specific_rooms_duplicate_witness :
  RoomSelectionRequest.validate_room_count [101; 101] = inr [101; 101]
  ∧ book_specific_rooms _initialize_rooms [101; 101]
    = (<[101 := false]> _initialize_rooms,
       Booked (Booking [101; 101] (Finite 0) SINGLE_FLOOR))
  ∧ (book_specific_rooms _initialize_rooms [101; 101]).1 !! 101 = Some false.
Proof.
  apply (book_specific_rooms_duplicate _initialize_rooms 101).
  vm_compute. reflexivity.
Defined.

(** C4: for [n >= 1] the single-floor search returns the empty list
    with infinite cost when no floor has [n] free rooms; otherwise it
    returns a window of [n] consecutive entries of some floor's
    ascending free-room list, all free, scored by the travel time
    between its first and last room, of least score among the windows
    of all floors, and strictly better than every window visited before
    it (ascending floor, then ascending start). *)
Theorem find_best_rooms_single_floor_optimal (h : gmap Z bool) (n : Z) :
  1 ≤ n →
  ((∀ floor, 1 ≤ floor ≤ 10 → len (_get_available_rooms_on_floor h floor) < n) →
   _find_best_rooms_single_floor h n = ([], Infinity))
  ∧ ((∃ floor, 1 ≤ floor ≤ 10 ∧ n ≤ len (_get_available_rooms_on_floor h floor)) →
     ∃ floor i a b,
       is_window h n floor i
       ∧ StronglySorted Z.lt (_get_available_rooms_on_floor h floor)
       ∧ length (window h n floor i) = Z.to_nat n
       ∧ Forall (λ r, h !! r = Some true) (window h n floor i)
       ∧ window h n floor i !! 0%nat = Some a
       ∧ window h n floor i !! Z.to_nat (n - 1) = Some b
       ∧ _find_best_rooms_single_floor h n
         = (window h n floor i, Finite (_travel_time a b))
       ∧ ∀ floor' i',
           is_window h n floor' i' →
           ∃ a' b',
             window h n floor' i' !! 0%nat = Some a'
             ∧ window h n floor' i' !! Z.to_nat (n - 1) = Some b'
             ∧ _travel_time a b ≤ _travel_time a' b'
             ∧ (earlier (floor', i') (floor, i) →
                _travel_time a b < _travel_time a' b')).
Proof.
  intros Hn. split.
  - intros Hnone. apply find_single_none.
    destruct (candidates h n) as [|c cs] eqn:Hcs; [done|]. exfalso.
    assert (candidates h n ≠ []) as Hne by (by rewrite Hcs).
    apply candidates_nonempty in Hne as (floor & Hfloor & Hlen); [|done].
    specialize (Hnone floor Hfloor). lia.
  - intros Hsome%candidates_nonempty; [|done].
    destruct (find_single_first_minimum h n Hsome)
      as (floor & i & Hwin & Hres & Hmin).
    assert (∀ floor' i', is_window h n floor' i' →
              length (window h n floor' i') = Z.to_nat n) as Hlength.
    { intros floor' i' (_ & Hi & Hlen). by apply slice_length; [|lia|]. }
    destruct (window_endpoints (window h n floor i) n Hn (Hlength _ _ Hwin))
      as (a & b & Ha & Hb & Htime).
    exists floor, i, a, b. rewrite Hres, Htime.
    split_and!; [done|apply get_available_sorted|by apply Hlength
                |apply window_free|done|done|done|].
    intros floor' i' Hwin'.
    destruct (window_endpoints (window h n floor' i') n Hn (Hlength _ _ Hwin'))
      as (a' & b' & Ha' & Hb' & Htime').
    exists a', b'. destruct (Hmin _ _ Hwin') as [Hle Hlt].
    rewrite Htime, Htime' in Hle, Hlt. by split_and!.
Qed.

Lemma find_best_rooms_single_floor_optimal_witness :
  ∃ floor i a b,
    is_window _initialize_rooms 3 floor i
    ∧ StronglySorted Z.lt (_get_available_rooms_on_floor _initialize_rooms floor)
    ∧ length (window _initialize_rooms 3 floor i) = Z.to_nat 3
    ∧ Forall (λ r, _initialize_rooms !! r = Some true)
             (window _initialize_rooms 3 floor i)
    ∧ window _initialize_rooms 3 floor i !! 0%nat = Some a
    ∧ window _initialize_rooms 3 floor i !! Z.to_nat (3 - 1) = Some b
    ∧ _find_best_rooms_single_floor _initialize_rooms 3
      = (window _initialize_rooms 3 floor i, Finite (_travel_time a b))
    ∧ ∀ floor' i',
        is_window _initialize_rooms 3 floor' i' →
        ∃ a' b',
          window _initialize_rooms 3 floor' i' !! 0%nat = Some a'
          ∧ window _initialize_rooms 3 floor' i' !! Z.to_nat (3 - 1) = Some b'
          ∧ _travel_time a b ≤ _travel_time a' b'
          ∧ (earlier (floor', i') (floor, i) →
             _travel_time a b < _travel_time a' b').
Proof.
  apply (proj2 (find_best_rooms_single_floor_optimal _initialize_rooms 3 ltac:(lia))).
  exists 1. split; [lia|]. vm_compute. discriminate.
Defined.

(** C3: for a count in 1..5, when some floor has that many free rooms
    the automatic booking commits the result of the single-floor search
    and classifies it single-floor, and its rooms are all on one floor;
    a multi-floor answer is only ever given when no floor qualifies, and
    is then the result of the multi-floor search.  The travel times of
    the two searches are never compared. *)
Theorem book_rooms_prefers_single_floor (h : gmap Z bool) (n : Z) :
  1 ≤ n ≤ 5 →
  ((∃ floor, 1 ≤ floor ≤ 10 ∧ n ≤ len (_get_available_rooms_on_floor h floor)) →
   ∃ floor rooms t,
     1 ≤ floor ≤ 10
     ∧ _find_best_rooms_single_floor h n = (rooms, t)
     ∧ book_rooms h n
       = (mark_booked h rooms, Booked (Booking rooms t SINGLE_FLOOR))
     ∧ len rooms = n
     ∧ Forall (λ r, r `div` 100 = floor) rooms)
  ∧ (∀ h' b,
       book_rooms h n = (h', Booked b) →
       booking_type b = MULTI_FLOOR →
       (∀ floor, 1 ≤ floor ≤ 10 →
          len (_get_available_rooms_on_floor h floor) < n)
       ∧ _find_best_rooms_single_floor h n = ([], Infinity)
       ∧ _find_best_rooms_multi_floor h n = (booked_rooms b, travel_time b)).
Proof.
  intros Hn.
  assert ((∃ floor, 1 ≤ floor ≤ 10
                    ∧ n ≤ len (_get_available_rooms_on_floor h floor)) →
          ∃ floor rooms t,
            1 ≤ floor ≤ 10
            ∧ _find_best_rooms_single_floor h n = (rooms, t)
            ∧ book_rooms h n
              = (mark_booked h rooms, Booked (Booking rooms t SINGLE_FLOOR))
            ∧ len rooms = n
            ∧ Forall (λ r, r `div` 100 = floor) rooms) as Hsingle.
  { intros Hsome%candidates_nonempty; [|lia].
    destruct (find_single_first_minimum h n Hsome)
      as (floor & i & Hwin & Hres & _).
    pose proof Hwin as (Hfloor & Hi & Hlen).
    pose proof (slice_length (_get_available_rooms_on_floor h floor) i n
                  Hi ltac:(lia) Hlen) as Hlength.
    fold (window h n floor i) in Hlength.
    exists floor, (window h n floor i), (Finite (window_time (window h n floor i))).
    split_and!; [lia|lia|done| |unfold len; lia|by apply window_floor].
    unfold book_rooms. rewrite Hres.
    rewrite bool_decide_eq_false_2 by lia.
    rewrite bool_decide_eq_false_2 by lia.
    rewrite bool_decide_eq_false_2; [done|].
    intros Hnil. rewrite Hnil in Hlength. cbn in Hlength. lia. }
  split; [exact Hsingle|].
  intros h' b Hbook Htype.
  assert (∀ floor, 1 ≤ floor ≤ 10 →
            len (_get_available_rooms_on_floor h floor) < n) as Hnone.
  { intros floor Hfloor.
    destruct (decide (len (_get_available_rooms_on_floor h floor) < n))
      as [|Hge]; [done|]. exfalso.
    destruct Hsingle as (floor' & rooms & t & _ & _ & Hbook' & _).
    { exists floor. split; [done|lia]. }
    rewrite Hbook' in Hbook. simplify_eq. }
  assert (_find_best_rooms_single_floor h n = ([], Infinity)) as Hempty.
  { apply find_single_none.
    destruct (candidates h n) as [|c cs] eqn:Hcs; [done|]. exfalso.
    assert (candidates h n ≠ []) as Hne by (by rewrite Hcs).
    apply candidates_nonempty in Hne as (floor & Hfloor & Hlen); [|lia].
    specialize (Hnone floor Hfloor). lia. }
  split_and!; [done|done|].
  unfold book_rooms in Hbook. rewrite Hempty in Hbook.
  destruct (_find_best_rooms_multi_floor h n) as [multi t2].
  repeat case_bool_decide; by simplify_eq.
Qed.

Lemma book_rooms_prefers_single_floor_witness :
  ∃ floor rooms t,
    1 ≤ floor ≤ 10
    ∧ _find_best_rooms_single_floor _initialize_rooms 3 = (rooms, t)
    ∧ book_rooms _initialize_rooms 3
      = (mark_booked _initialize_rooms rooms,
         Booked (Booking rooms t SINGLE_FLOOR))
    ∧ len rooms = 3
    ∧ Forall (λ r, r `div` 100 = floor) rooms.
Proof.
  apply (proj1 (book_rooms_prefers_single_floor _initialize_rooms 3 ltac:(lia))).
  exists 1. split; [lia|]. vm_compute. discriminate.
Defined.

(** C5: when the automatic booking succeeds, every returned room was
    free before the call and is occupied after it, and every room that
    was not returned has the occupancy it had before. *)
Theorem book_rooms_flips_exactly (h h' : gmap Z bool) (n : Z) (b : booking) :
  1 ≤ n ≤ 5 →
  book_rooms h n = (h', Booked b) →
  ∀ r, (r ∈ booked_rooms b → h !! r = Some true ∧ h' !! r = Some false)
       ∧ (r ∉ booked_rooms b → h' !! r = h !! r).
Proof.
  intros _ (_ & -> & Hfree)%book_rooms_booked r.
  rewrite mark_booked_lookup. rewrite Forall_forall in Hfree. split.
  - intros Hin. rewrite decide_True by done. split; [by apply Hfree|done].
  - intros Hout. by rewrite decide_False by done.
Qed.

Lemma book_rooms_flips_exactly_witness :
  (_initialize_rooms !! 101 = Some true
   ∧ (book_rooms _initialize_rooms 3).1 !! 101 = Some false)
  ∧ (book_rooms _initialize_rooms 3).1 !! 104 = _initialize_rooms !! 104.
Proof.
  pose proof (book_rooms_flips_exactly _initialize_rooms
                (book_rooms _initialize_rooms 3).1 3
                (Booking [101; 102; 103] (Finite 2) SINGLE_FLOOR)
                ltac:(lia) ltac:(vm_compute; reflexivity)) as Hflip.
  split.
  - apply (Hflip 101). apply list_elem_of_here.
  - apply (Hflip 104). apply (bool_decide_unpack _). vm_compute. exact I.
Defined.

(** C6: cancelling exactly the rooms a successful automatic booking
    returned succeeds and gives back the occupancy map of before the
    booking. *)
Theorem cancel_undoes_book_rooms (h h' : gmap Z bool) (n : Z) (b : booking) :
  book_rooms h n = (h', Booked b) →
  cancel_booking h' (booked_rooms b)
  = (h, Status true ("Successfully canceled booking for rooms: "
                     +:+ str_list (booked_rooms b))).
Proof.
  intros (_ & -> & Hfree)%book_rooms_booked. unfold cancel_booking.
  rewrite Forall_forall in Hfree.
  rewrite cancel_loop_all_keys.
  - f_equal. apply map_eq. intros r.
    rewrite assign_all_lookup, mark_booked_lookup.
    case_decide as Hin; [|done]. symmetry. by apply Hfree.
  - apply Forall_forall. intros r Hin.
    rewrite mark_booked_lookup, decide_True by done. by eexists.
Qed.

Lemma cancel_undoes_book_rooms_witness :
  cancel_booking (book_rooms _initialize_rooms 3).1 [101; 102; 103]
  = (_initialize_rooms,
     Status true ("Successfully canceled booking for rooms: "
                  +:+ str_list [101; 102; 103])).
Proof.
  apply (cancel_undoes_book_rooms _initialize_rooms
           (book_rooms _initialize_rooms 3).1 3
           (Booking [101; 102; 103] (Finite 2) SINGLE_FLOOR)).
  vm_compute. reflexivity.
Defined.

(** C9: a map whose keys are those of the freshly initialised one has
    exactly the valid room identifiers as keys, and automatic booking,
    specific booking, cancellation, randomize and reset all return a
    map with the same keys. *)
Theorem key_set_invariant (h : gmap Z bool) :
  dom h = dom _initialize_rooms →
  (∀ id, id ∈ dom h ↔ valid_room id)
  ∧ (∀ n, dom (book_rooms h n).1 = dom h)
  ∧ (∀ rooms, dom (book_specific_rooms h rooms).1 = dom h)
  ∧ (∀ rooms, dom (cancel_booking h rooms).1 = dom h)
  ∧ (∀ choice, dom (generate_random_occupancy choice h).1 = dom h)
  ∧ dom (reset h).1 = dom h.
Proof.
  intros Hdom. split_and!.
  - intros id. rewrite Hdom, elem_of_dom. apply initialize_rooms_keys.
  - intros n. apply book_rooms_dom.
  - intros rooms. apply specific_dom.
  - intros rooms. apply cancel_loop_dom.
  - intros choice. apply randomize_dom.
  - by rewrite Hdom.
Qed.

Lemma key_set_invariant_witness :
  let h := (book_rooms _initialize_rooms 3).1 in
  (∀ id, id ∈ dom h ↔ valid_room id)
  ∧ (∀ n, dom (book_rooms h n).1 = dom h)
  ∧ (∀ rooms, dom (book_specific_rooms h rooms).1 = dom h)
  ∧ (∀ rooms, dom (cancel_booking h rooms).1 = dom h)
  ∧ (∀ choice, dom (generate_random_occupancy choice h).1 = dom h)
  ∧ dom (reset h).1 = dom h.
Proof.
  apply (key_set_invariant (book_rooms _initialize_rooms 3).1).
  vm_compute. reflexivity.
Defined.

(** ** Further properties of the engine *)

(** *** The travel-time metric *)

(** X1: the travel time is a metric on room numbers: it is never
    negative, it is zero only between a room and itself, and it obeys
    the triangle inequality. *)
Theorem travel_time_is_metric (a b c : Z) :
  0 ≤ _travel_time a b
  ∧ (_travel_time a b = 0 ↔ a = b)
  ∧ _travel_time a c ≤ _travel_time a b + _travel_time b c.
Proof.
  unfold _travel_time. split_and!; [lia| |lia]. split; [|intros ->; lia].
  intros Hzero.
  pose proof (Z.div_mod a 100 ltac:(lia)) as Ha.
  pose proof (Z.div_mod b 100 ltac:(lia)) as Hb.
  revert Hzero Ha Hb.
  generalize (a `div` 100), (b `div` 100), (a `mod` 100), (b `mod` 100).
  intros fa fb ma mb Hzero Ha Hb. lia.
Qed.

(** *** The free rooms of a floor *)

Lemma rooms_on_le (floor : Z) : 0 ≤ rooms_on floor ≤ 10.
Proof.
  unfold rooms_on, rooms_per_floor.
  generalize (Z.to_nat (floor - 1)). intros k.
  do 10 (destruct k as [|k]; [cbn; lia|]). destruct k; cbn; lia.
Qed.


(** *** The multi-floor search *)

Section multi_floor.
Implicit Types (h : gmap Z bool) (n floor i r : Z).

Lemma sorted_lt_le (l : list Z) : StronglySorted Z.lt l → StronglySorted Z.le l.
Proof.
  induction 1 as [|x l Hl IH Hx]; constructor; [done|].
  eapply Forall_impl; [exact Hx|]. intros y Hy. simpl in Hy. lia.
Qed.

(** Sorting a list that is already ascending returns it. *)
Lemma sorted_ascending (l : list Z) : StronglySorted Z.lt l → sorted l = l.
Proof.
  intros Hl. unfold sorted. apply (StronglySorted_unique Z.le).
  - apply StronglySorted_merge_sort; apply _.
  - by apply sorted_lt_le.
  - apply merge_sort_Permutation.
Qed.

Lemma all_free_sorted h : StronglySorted Z.lt (all_free h).
Proof.
  unfold all_free. apply (bind_sorted Z.lt); [apply range_sorted| |].
  - intros floor. apply get_available_sorted.
  - intros x y a b Hxy (_ & ia & Hia & ->)%elem_of_get_available
                       (_ & ib & Hib & ->)%elem_of_get_available.
    pose proof (rooms_on_le x). lia.
Qed.

Lemma elem_of_all_free h r :
  r ∈ all_free h
  ↔ ∃ floor, 1 ≤ floor ≤ 10 ∧ r ∈ _get_available_rooms_on_floor h floor.
Proof.
  unfold all_free, floors. rewrite list_elem_of_bind.
  setoid_rewrite elem_of_range. split.
  - intros (floor & Hr & Hfloor). exists floor. split; [lia|done].
  - intros (floor & Hfloor & Hr). exists floor. split; [done|lia].
Qed.

Lemma all_free_valid h r : r ∈ all_free h ↔ h !! r = Some true ∧ valid_room r.
Proof.
  rewrite elem_of_all_free. unfold valid_room.
  setoid_rewrite elem_of_get_available. split.
  - intros (floor & Hfloor & Hfree & index & Hindex & ->).
    split; [done|]. exists floor, index.
    rewrite <- rooms_on_floor by done. done.
  - intros (Hfree & floor & index & Hfloor & Hindex & ->).
    rewrite <- rooms_on_floor in Hindex by done.
    exists floor. split_and!; [lia|lia|done|]. by exists index.
Qed.

(** The free-room list of a visited floor is part of the collected list. *)
Lemma get_available_length_le h floor :
  1 ≤ floor ≤ 10 →
  len (_get_available_rooms_on_floor h floor) ≤ len (all_free h).
Proof.
  intros Hfloor. unfold all_free, len.
  assert (floor ∈ range 1 (floors + 1)) as Hin
    by (apply elem_of_range; unfold floors; lia).
  apply list_elem_of_split in Hin as (l1 & l2 & ->).
  rewrite bind_app, bind_cons, !length_app. lia.
Qed.

Lemma find_multi_scan h n :
  _find_best_rooms_multi_floor h n
  = if bool_decide (len (all_free h) < n) then ([], Infinity)
    else foldl (keep_better (λ i, slice (all_free h) i (i + n))) ([], Infinity)
               (range 0 (len (all_free h) - n + 1)).
Proof.
  unfold _find_best_rooms_multi_floor. rewrite collect_all_available.
  fold (all_free h). cbn zeta. case_bool_decide; [done|].
  rewrite sorted_ascending by apply all_free_sorted.
  apply foldl_ext_all. intros best i. apply try_window_keep_better.
Qed.

(** The window loop over candidates listed in ascending order. *)
Lemma scan_sorted_first_minimum {C} (R : relation C) (w : C → list Z)
    (cs : list C) :
  (∀ a b, R a b → R b a → False) →
  StronglySorted R cs →
  cs ≠ [] →
  ∃ c, c ∈ cs
       ∧ foldl (keep_better w) ([], Infinity) cs
         = (w c, Finite (window_time (w c)))
       ∧ ∀ c', c' ∈ cs →
               window_time (w c) ≤ window_time (w c')
               ∧ (R c' c → window_time (w c) < window_time (w c')).
Proof.
  intros Hasym Hsorted Hcs.
  destruct (scan_first_minimum w cs Hcs)
    as (pre & c & post & Heq & Hres & Hpre & Hpost).
  exists c. rewrite Heq in Hsorted |- *. split_and!; [|by rewrite <- Heq|].
  { apply elem_of_app. right. apply list_elem_of_here. }
  rewrite Forall_forall in Hpre. rewrite Forall_forall in Hpost.
  apply StronglySorted_app in Hsorted as (_ & _ & Hsorted).
  apply StronglySorted_cons in Hsorted as [Hafter _].
  rewrite Forall_forall in Hafter.
  intros c' [Hin|Hin]%elem_of_app.
  { specialize (Hpre _ Hin). split; [lia|done]. }
  apply elem_of_cons in Hin as [->|Hin].
  { split; [lia|]. intros Hcc. destruct (Hasym _ _ Hcc Hcc). }
  split; [by apply Hpost|].
  intros Hcc. destruct (Hasym _ _ Hcc (Hafter _ Hin)).
Qed.

Lemma find_multi_first_minimum h n :
  1 ≤ n → n ≤ len (all_free h) →
  ∃ i, 0 ≤ i ∧ i + n ≤ len (all_free h)
       ∧ _find_best_rooms_multi_floor h n
         = (slice (all_free h) i (i + n),
            Finite (window_time (slice (all_free h) i (i + n))))
       ∧ ∀ i', 0 ≤ i' → i' + n ≤ len (all_free h) →
               window_time (slice (all_free h) i (i + n))
               ≤ window_time (slice (all_free h) i' (i' + n))
               ∧ (i' < i →
                  window_time (slice (all_free h) i (i + n))
                  < window_time (slice (all_free h) i' (i' + n))).
Proof.
  intros Hn Hlen. rewrite find_multi_scan.
  rewrite bool_decide_eq_false_2 by lia.
  destruct (scan_sorted_first_minimum Z.lt
              (λ i, slice (all_free h) i (i + n))
              (range 0 (len (all_free h) - n + 1)))
    as (i & Hi%elem_of_range & Hres & Hmin).
  { intros a b. lia. }
  { apply range_sorted. }
  { intros Hnil. assert (0 ∈ range 0 (len (all_free h) - n + 1)) as Hin
      by (apply elem_of_range; lia).
    rewrite Hnil in Hin. by apply elem_of_nil in Hin. }
  exists i. split_and!; [lia|lia|done|].
  intros i' Hi' Hlen'. apply Hmin, elem_of_range. lia.
Qed.

Lemma find_multi_none h n :
  len (all_free h) < n → _find_best_rooms_multi_floor h n = ([], Infinity).
Proof. intros Hlen. rewrite find_multi_scan. by rewrite bool_decide_eq_true_2. Qed.

End multi_floor.

(** X3: for [n >= 1] the multi-floor search works on the ascending list
    of all free rooms of the topology.  With fewer than [n] of them it
    returns the empty list and infinite cost; otherwise it returns [n]
    consecutive entries of that list, scored by the travel time between
    the first and the last, of least score among all such windows and
    strictly better than every window that starts earlier. *)
Theorem find_best_rooms_multi_floor_optimal (h : gmap Z bool) (n : Z) :
  1 ≤ n →
  StronglySorted Z.lt (all_free h)
  ∧ (∀ r, r ∈ all_free h ↔ h !! r = Some true ∧ valid_room r)
  ∧ (len (all_free h) < n →
     _find_best_rooms_multi_floor h n = ([], Infinity))
  ∧ (n ≤ len (all_free h) →
     ∃ i a b,
       0 ≤ i ∧ i + n ≤ len (all_free h)
       ∧ length (slice (all_free h) i (i + n)) = Z.to_nat n
       ∧ slice (all_free h) i (i + n) !! 0%nat = Some a
       ∧ slice (all_free h) i (i + n) !! Z.to_nat (n - 1) = Some b
       ∧ _find_best_rooms_multi_floor h n
         = (slice (all_free h) i (i + n), Finite (_travel_time a b))
       ∧ ∀ i', 0 ≤ i' → i' + n ≤ len (all_free h) →
               ∃ a' b',
                 slice (all_free h) i' (i' + n) !! 0%nat = Some a'
                 ∧ slice (all_free h) i' (i' + n) !! Z.to_nat (n - 1) = Some b'
                 ∧ _travel_time a b ≤ _travel_time a' b'
                 ∧ (i' < i → _travel_time a b < _travel_time a' b')).
Proof.
  intros Hn. split_and!.
  - apply all_free_sorted.
  - apply all_free_valid.
  - apply find_multi_none.
  - intros Hlen.
    destruct (find_multi_first_minimum h n Hn Hlen)
      as (i & Hi & Hilen & Hres & Hmin).
    assert (∀ j, 0 ≤ j → j + n ≤ len (all_free h) →
              length (slice (all_free h) j (j + n)) = Z.to_nat n) as Hlength.
    { intros j Hj Hjlen. by apply slice_length; [|lia|]. }
    destruct (window_endpoints _ n Hn (Hlength i Hi Hilen))
      as (a & b & Ha & Hb & Htime).
    exists i, a, b. rewrite Hres, Htime.
    split_and!; [done|done|by apply Hlength|done|done|done|].
    intros i' Hi' Hilen'.
    destruct (window_endpoints _ n Hn (Hlength i' Hi' Hilen'))
      as (a' & b' & Ha' & Hb' & Htime').
    exists a', b'. destruct (Hmin i' Hi' Hilen') as [Hle Hlt].
    rewrite Htime, Htime' in Hle, Hlt. by split_and!.
Qed.

Lemma find_best_rooms_multi_floor_optimal_witness :
  ∃ i a b,
    0 ≤ i ∧ i + 3 ≤ len (all_free _initialize_rooms)
    ∧ length (slice (all_free _initialize_rooms) i (i + 3)) = Z.to_nat 3
    ∧ slice (all_free _initialize_rooms) i (i + 3) !! 0%nat = Some a
    ∧ slice (all_free _initialize_rooms) i (i + 3) !! Z.to_nat (3 - 1) = Some b
    ∧ _find_best_rooms_multi_floor _initialize_rooms 3
      = (slice (all_free _initialize_rooms) i (i + 3), Finite (_travel_time a b))
    ∧ ∀ i', 0 ≤ i' → i' + 3 ≤ len (all_free _initialize_rooms) →
            ∃ a' b',
              slice (all_free _initialize_rooms) i' (i' + 3) !! 0%nat = Some a'
              ∧ slice (all_free _initialize_rooms) i' (i' + 3) !! Z.to_nat (3 - 1)
                = Some b'
              ∧ _travel_time a b ≤ _travel_time a' b'
              ∧ (i' < i → _travel_time a b < _travel_time a' b').
Proof.
  apply (find_best_rooms_multi_floor_optimal _initialize_rooms 3 ltac:(lia)).
  vm_compute. discriminate.
Defined.

(** *** Automatic booking *)

Section automatic.
Implicit Types (h : gmap Z bool) (n floor i r : Z).

Lemma slice_sorted {A} (R : relation A) (l : list A) (i j : Z) :
  StronglySorted R l → StronglySorted R (slice l i j).
Proof.
  intros Hl. unfold slice.
  rewrite <- (take_drop (Z.to_nat j) l) in Hl.
  apply StronglySorted_app_1_l in Hl.
  rewrite <- (take_drop (Z.to_nat i) (take (Z.to_nat j) l)) in Hl.
  by apply StronglySorted_app_1_r in Hl.
Qed.

Lemma sorted_lt_NoDup (l : list Z) : StronglySorted Z.lt l → NoDup l.
Proof.
  induction 1 as [|x l Hl IH Hx]; constructor; [|done].
  intros Hin. rewrite Forall_forall in Hx. specialize (Hx x Hin). lia.
Qed.

(** The three ways [book_rooms] ends for a count in 1..5. *)
Lemma book_rooms_outcome h n :
  1 ≤ n ≤ 5 →
  (∃ floor i,
     is_window h n floor i
     ∧ book_rooms h n
       = (mark_booked h (window h n floor i),
          Booked (Booking (window h n floor i)
                          (Finite (window_time (window h n floor i)))
                          SINGLE_FLOOR)))
  ∨ (candidates h n = []
     ∧ ∃ i, 0 ≤ i ∧ i + n ≤ len (all_free h)
            ∧ book_rooms h n
              = (mark_booked h (slice (all_free h) i (i + n)),
                 Booked (Booking (slice (all_free h) i (i + n))
                                 (Finite (window_time (slice (all_free h) i (i + n))))
                                 MULTI_FLOOR)))
  ∨ (candidates h n = []
     ∧ len (all_free h) < n
     ∧ book_rooms h n = (h, Error NotEnoughRooms)).
Proof.
  intros Hn. unfold book_rooms.
  rewrite bool_decide_eq_false_2 by lia.
  rewrite bool_decide_eq_false_2 by lia.
  destruct (candidates h n) as [|c cs] eqn:Hcs.
  - right. rewrite find_single_none by done.
    rewrite bool_decide_eq_true_2 by done.
    destruct (decide (len (all_free h) < n)) as [Hfew|Henough].
    + right. rewrite find_multi_none by done.
      by rewrite bool_decide_eq_true_2 by done.
    + left. split; [done|].
      destruct (find_multi_first_minimum h n) as (i & Hi & Hlen & -> & _);
        [lia|lia|].
      exists i. split_and!; [done|done|].
      rewrite bool_decide_eq_false_2; [done|].
      apply slice_nonempty; [done|lia|done].
  - left. destruct (find_single_first_minimum h n) as (floor & i & Hwin & -> & _).
    { by rewrite Hcs. }
    exists floor, i. split; [done|].
    rewrite bool_decide_eq_false_2; [done|].
    destruct Hwin as (_ & Hi & Hlen). apply slice_nonempty; [done|lia|done].
Qed.

Lemma window_in_all_free h n floor i r :
  1 ≤ floor ≤ 10 → r ∈ window h n floor i → r ∈ all_free h.
Proof.
  intros Hfloor Hr%slice_subseteq. apply elem_of_all_free. by exists floor.
Qed.

End automatic.

(** X4: for a count in 1..5 the automatic booking fails exactly when
    fewer than that many rooms of the topology are free in total; it
    then answers "Not enough rooms available for booking." and returns
    the map as it was.  With enough free rooms it always books. *)
Theorem book_rooms_succeeds_iff_enough_free (h : gmap Z bool) (n : Z) :
  1 ≤ n ≤ 5 →
  (len (all_free h) < n → book_rooms h n = (h, Error NotEnoughRooms))
  ∧ (n ≤ len (all_free h) →
     ∃ b, book_rooms h n = (mark_booked h (booked_rooms b), Booked b)).
Proof.
  intros Hn.
  destruct (book_rooms_outcome h n Hn)
    as [(floor & i & Hwin & Hbook)|[(_ & i & Hi & Hlen & Hbook)|(_ & Hfew & Hbook)]].
  - destruct Hwin as (Hfloor & Hi & Hlen).
    pose proof (get_available_length_le h floor Hfloor) as Hle.
    split; [lia|]. intros _. by eexists (Booking _ _ _).
  - split; [lia|]. intros _. by eexists (Booking _ _ _).
  - split; [done|lia].
Qed.

Lemma book_rooms_succeeds_iff_enough_free_witness :
  ∃ b, book_rooms _initialize_rooms 4
       = (mark_booked _initialize_rooms (booked_rooms b), Booked b).
Proof.
  apply (book_rooms_succeeds_iff_enough_free _initialize_rooms 4 ltac:(lia)).
  vm_compute. discriminate.
Defined.

(** X5: a successful automatic booking for [n] rooms returns exactly
    [n] room numbers of the topology, in strictly ascending order (so
    all different), and the travel time it reports is the travel time
    between the first and the last of them. *)
Theorem book_rooms_result_shape (h h' : gmap Z bool) (n : Z) (b : booking) :
  book_rooms h n = (h', Booked b) →
  len (booked_rooms b) = n
  ∧ StronglySorted Z.lt (booked_rooms b)
  ∧ NoDup (booked_rooms b)
  ∧ Forall valid_room (booked_rooms b)
  ∧ ∃ a z, booked_rooms b !! 0%nat = Some a
           ∧ booked_rooms b !! Z.to_nat (n - 1) = Some z
           ∧ travel_time b = Finite (_travel_time a z).
Proof.
  intros Hbook. pose proof (book_rooms_booked _ _ _ _ Hbook) as (Hn & _ & _).
  assert (∃ l i, 0 ≤ i ∧ i + n ≤ len l ∧ StronglySorted Z.lt l
                 ∧ (∀ r, r ∈ l → r ∈ all_free h)
                 ∧ booked_rooms b = slice l i (i + n)
                 ∧ travel_time b = Finite (window_time (slice l i (i + n))))
    as (l & i & Hi & Hlen & Hsorted & Hsub & Hrooms & Htime).
  { destruct (book_rooms_outcome h n Hn)
      as [(floor & i & Hwin & Hbook')|[(_ & i & Hi & Hlen & Hbook')|(_ & _ & Hbook')]];
      rewrite Hbook' in Hbook; simplify_eq.
    - destruct Hwin as (Hfloor & Hi & Hlen).
      exists (_get_available_rooms_on_floor h floor), i.
      split_and!; [done|done|apply get_available_sorted| |done|done].
      intros r Hr. apply elem_of_all_free. by exists floor.
    - exists (all_free h), i.
      split_and!; [done|done|apply all_free_sorted|done|done|done]. }
  pose proof (slice_length l i n Hi ltac:(lia) Hlen) as Hlength.
  rewrite Hrooms, Htime.
  assert (StronglySorted Z.lt (slice l i (i + n))) as Hslice
    by by apply slice_sorted.
  split_and!; [unfold len; lia|done|by apply sorted_lt_NoDup| |].
  - apply Forall_forall. intros r Hr%slice_subseteq.
    by apply Hsub, all_free_valid in Hr as [_ ?].
  - destruct (window_endpoints _ n ltac:(lia) Hlength) as (a & z & Ha & Hz & ->).
    by exists a, z.
Qed.

Lemma book_rooms_result_shape_witness :
  len [101; 102; 103] = 3
  ∧ StronglySorted Z.lt [101; 102; 103]
  ∧ NoDup [101; 102; 103]
  ∧ Forall valid_room [101; 102; 103]
  ∧ ∃ a z, [101; 102; 103] !! 0%nat = Some a
           ∧ [101; 102; 103] !! Z.to_nat (3 - 1) = Some z
           ∧ Finite 2 = Finite (_travel_time a z).
Proof.
  apply (book_rooms_result_shape _initialize_rooms
           (book_rooms _initialize_rooms 3).1 3
           (Booking [101; 102; 103] (Finite 2) SINGLE_FLOOR)).
  vm_compute. reflexivity.
Defined.

(** X6: the classification of an automatic booking is truthful: the
    answer is single-floor exactly when all returned rooms are on one
    floor.  A multi-floor answer always spans at least two floors. *)
Theorem book_rooms_classification (h h' : gmap Z bool) (n : Z) (b : booking) :
  book_rooms h n = (h', Booked b) →
  (booking_type b = SINGLE_FLOOR
   ↔ ∃ floor, Forall (λ r, r `div` 100 = floor) (booked_rooms b)).
Proof.
  intros Hbook. pose proof (book_rooms_booked _ _ _ _ Hbook) as (Hn & _ & _).
  destruct (book_rooms_outcome h n Hn)
    as [(floor & i & Hwin & Hbook')|[(Hnone & i & Hi & Hlen & Hbook')|(_ & _ & Hbook')]];
    rewrite Hbook' in Hbook; simplify_eq; cbn [booking_type booked_rooms].
  - split; [|done]. intros _. exists floor. apply window_floor. by destruct Hwin.
  - split; [done|]. intros [floor Hsame]. exfalso.
    rewrite Forall_forall in Hsame.
    set (rooms := slice (all_free h) i (i + n)) in *.
    pose proof (slice_length (all_free h) i n Hi ltac:(lia) Hlen) as Hlength.
    fold rooms in Hlength.
    assert (∀ r, r ∈ rooms →
              1 ≤ floor ≤ 10 ∧ r ∈ _get_available_rooms_on_floor h floor)
      as Hon.
    { intros r Hr. pose proof (Hsame r Hr) as Hfloor.
      apply slice_subseteq, elem_of_all_free in Hr as (floor' & Hfloor' & Hr).
      pose proof (get_available_floor h floor' r Hfloor' Hr) as Heq.
      assert (floor' = floor) as -> by lia. done. }
    assert (NoDup rooms) as Hnodup.
    { apply sorted_lt_NoDup, slice_sorted, all_free_sorted. }
    destruct rooms as [|r0 rooms'] eqn:Hrooms; [cbn in Hlength; lia|].
    destruct (Hon r0) as [Hfloor _]; [apply list_elem_of_here|].
    assert (r0 :: rooms' ⊆+ _get_available_rooms_on_floor h floor) as Hsub.
    { apply NoDup_submseteq; [done|]. intros r Hr. by apply Hon. }
    apply submseteq_length in Hsub. rewrite Hlength in Hsub.
    assert (candidates h n ≠ []) as Hcs.
    { apply candidates_nonempty; [lia|]. exists floor. split; [done|].
      unfold len. lia. }
    done.
Qed.

Lemma book_rooms_classification_witness :
  MULTI_FLOOR = SINGLE_FLOOR
  ↔ ∃ floor, Forall (λ r, r `div` 100 = floor) [110; 201].
Proof.
  apply (book_rooms_classification nearly_full (book_rooms nearly_full 2).1 2
           (Booking [110; 201] (Finite 11) MULTI_FLOOR)).
  vm_compute. reflexivity.
Defined.

(** *** How the operations compose *)

Section composition.
Implicit Types (h : gmap Z bool) (n r : Z) (rooms : list Z).

(** Whatever it answers, [book_rooms] leaves the map with some rooms
    set to [False] and nothing else changed. *)
Lemma book_rooms_state h n : ∃ rooms, (book_rooms h n).1 = mark_booked h rooms.
Proof.
  destruct (book_rooms h n) as [h' [e|b|ok msg]] eqn:Hbook.
  - exists []. unfold book_rooms in Hbook.
    destruct (_find_best_rooms_single_floor h n) as [single t1].
    destruct (_find_best_rooms_multi_floor h n) as [multi t2].
    repeat case_bool_decide; by simplify_eq.
  - apply book_rooms_booked in Hbook as (_ & -> & _). by eexists.
  - exists []. unfold book_rooms in Hbook.
    destruct (_find_best_rooms_single_floor h n) as [single t1].
    destruct (_find_best_rooms_multi_floor h n) as [multi t2].
    repeat case_bool_decide; by simplify_eq.
Qed.

Lemma book_specific_state h rooms :
  ∃ rooms', (book_specific_rooms h rooms).1 = mark_booked h rooms'.
Proof.
  unfold book_specific_rooms.
  destruct (first_unavailable h rooms); [by exists []|by exists rooms].
Qed.

Lemma book_specific_all_free h rooms :
  Forall (λ r, h !! r = Some true) rooms →
  ∃ t ty, book_specific_rooms h rooms
          = (mark_booked h rooms, Booked (Booking rooms (Finite t) ty)).
Proof.
  intros Hfree. unfold book_specific_rooms.
  rewrite first_unavailable_all_free by done. by eexists _, _.
Qed.

Lemma book_specific_booked h h' rooms b :
  book_specific_rooms h rooms = (h', Booked b) →
  h' = mark_booked h rooms
  ∧ booked_rooms b = rooms
  ∧ Forall (λ r, h !! r = Some true) rooms.
Proof.
  unfold book_specific_rooms. intros Hbook.
  pose proof (first_unavailable_spec h rooms) as Hspec.
  destruct (first_unavailable h rooms); simplify_eq. done.
Qed.

(** The loop of [cancel_booking] sets to [True] a prefix of its list. *)
Lemma cancel_loop_state h rooms todo :
  ∃ pre, (cancel_loop h rooms todo).1
         = foldl (λ available room, <[room := true]> available) h pre
         ∧ pre `prefix_of` todo.
Proof.
  revert h. induction todo as [|x todo IH]; intros h; cbn [cancel_loop].
  { exists []. split; [done|apply prefix_nil]. }
  case_bool_decide.
  - destruct (IH (<[x := true]> h)) as (pre & -> & Hpre).
    exists (x :: pre). split; [done|by apply prefix_cons].
  - exists []. split; [done|apply prefix_nil].
Qed.

End composition.

(** X7: rooms that a successful booking has just taken, automatically
    or by name, are never returned by the next automatic booking. *)
Theorem no_double_booking (h h1 h2 : gmap Z bool) (m : Z) (b2 : booking) (r : Z) :
  book_rooms h1 m = (h2, Booked b2) →
  ((∃ n b1, book_rooms h n = (h1, Booked b1) ∧ r ∈ booked_rooms b1)
   ∨ (∃ rooms b1, book_specific_rooms h rooms = (h1, Booked b1) ∧ r ∈ rooms)) →
  r ∉ booked_rooms b2.
Proof.
  intros (_ & _ & Hfree2)%book_rooms_booked Hfirst Hin2.
  rewrite Forall_forall in Hfree2. specialize (Hfree2 r Hin2).
  assert (h1 !! r = Some false) as Hocc; [|congruence].
  destruct Hfirst as [(n & b1 & Hbook & Hin)|(rooms & b1 & Hbook & Hin)].
  - apply book_rooms_booked in Hbook as (_ & -> & _).
    by rewrite mark_booked_lookup, decide_True.
  - apply book_specific_booked in Hbook as (-> & _ & _).
    by rewrite mark_booked_lookup, decide_True.
Qed.

Lemma no_double_booking_witness : 102 ∉ [104; 105; 106].
Proof.
  apply (no_double_booking _initialize_rooms
           (book_rooms _initialize_rooms 3).1
           (book_rooms (book_rooms _initialize_rooms 3).1 3).1 3
           (Booking [104; 105; 106] (Finite 2) SINGLE_FLOOR) 102).
  - vm_compute. reflexivity.
  - left. exists 3, (Booking [101; 102; 103] (Finite 2) SINGLE_FLOOR).
    split; [vm_compute; reflexivity|].
    apply list_elem_of_further, list_elem_of_here.
Defined.

(** X8: neither kind of booking ever frees a room: a room that is
    occupied before the call is occupied after it, whatever the request
    and whatever the answer. *)
Theorem booking_never_frees (h : gmap Z bool) (r : Z) :
  h !! r = Some false →
  (∀ n, (book_rooms h n).1 !! r = Some false)
  ∧ (∀ rooms, (book_specific_rooms h rooms).1 !! r = Some false).
Proof.
  intros Hocc. split.
  - intros n. destruct (book_rooms_state h n) as [rooms ->].
    rewrite mark_booked_lookup. by case_decide.
  - intros rooms. destruct (book_specific_state h rooms) as [rooms' ->].
    rewrite mark_booked_lookup. by case_decide.
Qed.

Lemma booking_never_frees_witness :
  (book_rooms nearly_full 2).1 !! 101 = Some false
  ∧ (book_specific_rooms nearly_full [110; 101]).1 !! 101 = Some false.
Proof.
  pose proof (booking_never_frees nearly_full 101
                ltac:(vm_compute; reflexivity)) as [Hauto Hspecific].
  split; [apply (Hauto 2)|apply (Hspecific [110; 101])].
Defined.

(** X9: cancellation never occupies a room: a room that is free before
    the call is free after it, whether the call succeeds or fails. *)
Theorem cancel_never_occupies (h : gmap Z bool) (rooms : list Z) (r : Z) :
  h !! r = Some true → (cancel_booking h rooms).1 !! r = Some true.
Proof.
  intros Hfree. unfold cancel_booking.
  destruct (cancel_loop_state h rooms rooms) as (pre & -> & _).
  rewrite assign_all_lookup. by case_decide.
Qed.

Lemma cancel_never_occupies_witness :
  (cancel_booking nearly_full [101; 999]).1 !! 110 = Some true.
Proof.
  apply (cancel_never_occupies nearly_full [101; 999] 110).
  vm_compute. reflexivity.
Defined.

(** *** Booking by name *)

Section by_name.
Implicit Types (h : gmap Z bool) (r : Z) (rooms : list Z).

Lemma travel_time_nonneg (a b : Z) : 0 ≤ _travel_time a b.
Proof. unfold _travel_time. lia. Qed.

(** The answer of a successful [book_specific_rooms], field by field. *)
Lemma book_specific_result h h' rooms b :
  book_specific_rooms h rooms = (h', Booked b) →
  b = Booking rooms
        (Finite (if bool_decide (len rooms > 1)
                 then _travel_time (first (sorted rooms)) (final (sorted rooms))
                 else 0))
        (if bool_decide
              (size (list_to_set ((λ room, room `div` 100) <$> rooms) : gset Z)
               = 1%nat)
         then SINGLE_FLOOR else MULTI_FLOOR).
Proof.
  unfold book_specific_rooms. intros Hbook.
  destruct (first_unavailable h rooms); by simplify_eq.
Qed.

(** The ends of a sorted list are the least and the greatest element
    of the list that was sorted. *)
Lemma sorted_extremes (l : list Z) :
  l ≠ [] →
  first (sorted l) ∈ l
  ∧ final (sorted l) ∈ l
  ∧ Forall (λ r, first (sorted l) ≤ r ≤ final (sorted l)) l.
Proof.
  intros Hl. unfold sorted.
  pose proof (merge_sort_Permutation Z.le l) as Hperm.
  assert (StronglySorted Z.le (merge_sort Z.le l)) as Hsorted
    by (apply StronglySorted_merge_sort; apply _).
  destruct (merge_sort Z.le l) as [|x s] eqn:Hs.
  { apply Permutation_nil_l in Hperm. by subst l. }
  destruct (last_is_Some (x :: s)) as [_ [z Hz]]; [done|].
  unfold first, final. rewrite Hz. cbn [head default].
  pose proof Hz as [s' Hs']%last_Some.
  assert (∀ r, r ∈ x :: s → x ≤ r) as Hlo.
  { apply StronglySorted_cons in Hsorted as [Hx _].
    rewrite Forall_forall in Hx.
    intros r [->|Hr]%elem_of_cons; [lia|by apply Hx]. }
  assert (∀ r, r ∈ x :: s → r ≤ z) as Hhi.
  { rewrite Hs' in Hsorted |- *.
    apply StronglySorted_app in Hsorted as (Hcross & _ & _).
    intros r [Hr|Hr]%elem_of_app.
    - apply Hcross; [done|apply list_elem_of_here].
    - apply elem_of_cons in Hr as [->|Hr]; [lia|by apply elem_of_nil in Hr]. }
  split_and!.
  - rewrite <- Hperm. apply list_elem_of_here.
  - rewrite <- Hperm. by apply last_Some_elem_of.
  - apply Forall_forall. intros r Hr. rewrite <- Hperm in Hr.
    split; [by apply Hlo|by apply Hhi].
Qed.

(** [len(floors) == 1] for the set of floors of a list of rooms. *)
Lemma one_floor_iff (f : Z → Z) rooms :
  size (list_to_set (f <$> rooms) : gset Z) = 1%nat
  ↔ rooms ≠ [] ∧ ∃ floor, Forall (λ r, f r = floor) rooms.
Proof.
  split.
  - intros Hsize. split.
    { intros ->. cbn in Hsize. by rewrite size_empty in Hsize. }
    pose proof (size_1_elem_of _ Hsize) as [floor Hset].
    exists floor. apply Forall_forall. intros r Hr.
    assert (f r ∈ (list_to_set (f <$> rooms) : gset Z)) as Hin.
    { apply elem_of_list_to_set, list_elem_of_fmap. by exists r. }
    rewrite Hset in Hin. by apply elem_of_singleton in Hin.
  - intros [Hne [floor Hsame]]. rewrite Forall_forall in Hsame.
    assert ((list_to_set (f <$> rooms) : gset Z) = {[ floor ]}) as ->;
      [|apply size_singleton].
    apply set_eq. intros y.
    rewrite elem_of_list_to_set, list_elem_of_fmap, elem_of_singleton. split.
    + intros (r & -> & Hr). by apply Hsame.
    + intros ->. destruct rooms as [|r0 rooms']; [done|].
      exists r0. split; [|apply list_elem_of_here].
      symmetry. apply Hsame, list_elem_of_here.
Qed.

Lemma keys_or_first_unknown h rooms :
  Forall (λ r, is_Some (h !! r)) rooms
  ∨ ∃ pre r post, rooms = pre ++ r :: post
                  ∧ Forall (λ x, is_Some (h !! x)) pre
                  ∧ h !! r = None.
Proof.
  induction rooms as [|x rooms IH]; [left; constructor|].
  destruct (h !! x) as [v|] eqn:Hx.
  - destruct IH as [Hall|(pre & r & post & -> & Hpre & Hr)].
    + left. constructor; [by rewrite Hx|done].
    + right. exists (x :: pre), r, post.
      split_and!; [done| |done]. constructor; [by rewrite Hx|done].
  - right. exists [], x, rooms. split_and!; [done|constructor|done].
Qed.

Lemma assign_twice (v : bool) h rooms :
  foldl (λ available room, <[room := v]> available)
        (foldl (λ available room, <[room := v]> available) h rooms) rooms
  = foldl (λ available room, <[room := v]> available) h rooms.
Proof.
  apply map_eq. intros r. rewrite !assign_all_lookup. by case_decide.
Qed.

End by_name.

(** X10: when every requested room is a free room of the map, booking
    by name succeeds, returns the list as given, reports a travel time
    that is not negative, marks exactly the listed rooms occupied and
    changes no other room. *)
Theorem book_specific_rooms_books_exactly (h : gmap Z bool) (rooms : list Z) :
  Forall (λ r, h !! r = Some true) rooms →
  ∃ h' t ty,
    book_specific_rooms h rooms = (h', Booked (Booking rooms (Finite t) ty))
    ∧ 0 ≤ t
    ∧ ∀ r, (r ∈ rooms → h' !! r = Some false)
           ∧ (r ∉ rooms → h' !! r = h !! r).
Proof.
  intros Hfree. destruct (book_specific_all_free h rooms Hfree) as (t & ty & Hbook).
  exists (mark_booked h rooms), t, ty. split_and!; [done| |].
  - apply book_specific_result in Hbook. simplify_eq.
    case_bool_decide; [apply travel_time_nonneg|done].
  - intros r. rewrite mark_booked_lookup. split; intros Hr.
    + by rewrite decide_True.
    + by rewrite decide_False.
Qed.

Lemma book_specific_rooms_books_exactly_witness :
  ∃ h' t ty,
    book_specific_rooms _initialize_rooms [305; 101]
    = (h', Booked (Booking [305; 101] (Finite t) ty))
    ∧ 0 ≤ t
    ∧ ∀ r, (r ∈ [305; 101] → h' !! r = Some false)
           ∧ (r ∉ [305; 101] → h' !! r = _initialize_rooms !! r).
Proof.
  apply (book_specific_rooms_books_exactly _initialize_rooms [305; 101]).
  repeat constructor.
Defined.

(** X11: the travel time of a booking by name is the travel time
    between the smallest and the largest requested room number, and 0
    when at most one room is requested. *)
Theorem book_specific_rooms_travel_time
    (h h' : gmap Z bool) (rooms : list Z) (b : booking) :
  book_specific_rooms h rooms = (h', Booked b) →
  (len rooms ≤ 1 → travel_time b = Finite 0)
  ∧ (len rooms > 1 →
     ∃ lo hi, lo ∈ rooms ∧ hi ∈ rooms
              ∧ Forall (λ r, lo ≤ r ≤ hi) rooms
              ∧ travel_time b = Finite (_travel_time lo hi)).
Proof.
  intros ->%book_specific_result. cbn [travel_time]. split; intros Hlen.
  - by rewrite bool_decide_eq_false_2 by lia.
  - rewrite bool_decide_eq_true_2 by done.
    destruct (sorted_extremes rooms) as (Hlo & Hhi & Hall).
    { intros ->. unfold len in Hlen. cbn in Hlen. lia. }
    by exists (first (sorted rooms)), (final (sorted rooms)).
Qed.

Lemma book_specific_rooms_travel_time_witness :
  ∃ lo hi, lo ∈ [305; 101; 208] ∧ hi ∈ [305; 101; 208]
           ∧ Forall (λ r, lo ≤ r ≤ hi) [305; 101; 208]
           ∧ Finite 8 = Finite (_travel_time lo hi).
Proof.
  apply (book_specific_rooms_travel_time _initialize_rooms
           (book_specific_rooms _initialize_rooms [305; 101; 208]).1
           [305; 101; 208]
           (Booking [305; 101; 208] (Finite 8) MULTI_FLOOR)).
  - vm_compute. reflexivity.
  - vm_compute. reflexivity.
Defined.

(** X12: a booking by name is classified single-floor exactly when the
    list is not empty and all its rooms are on one floor; the empty list
    is classified multi-floor. *)
Theorem book_specific_rooms_classification
    (h h' : gmap Z bool) (rooms : list Z) (b : booking) :
  book_specific_rooms h rooms = (h', Booked b) →
  (booking_type b = SINGLE_FLOOR
   ↔ rooms ≠ [] ∧ ∃ floor, Forall (λ r, r `div` 100 = floor) rooms).
Proof.
  intros ->%book_specific_result. cbn [booking_type].
  rewrite <- one_floor_iff. by case_bool_decide.
Qed.

Lemma book_specific_rooms_classification_witness :
  MULTI_FLOOR = SINGLE_FLOOR
  ↔ [305; 101] ≠ [] ∧ ∃ floor, Forall (λ r, r `div` 100 = floor) [305; 101].
Proof.
  apply (book_specific_rooms_classification _initialize_rooms
           (book_specific_rooms _initialize_rooms [305; 101]).1
           [305; 101] (Booking [305; 101] (Finite 8) MULTI_FLOOR)).
  vm_compute. reflexivity.
Defined.

(** X13: cancelling exactly the list a successful booking by name was
    given succeeds and gives back the occupancy map of before that
    booking. *)
Theorem cancel_undoes_book_specific_rooms
    (h h' : gmap Z bool) (rooms : list Z) (b : booking) :
  book_specific_rooms h rooms = (h', Booked b) →
  cancel_booking h' rooms
  = (h, Status true ("Successfully canceled booking for rooms: "
                     +:+ str_list rooms)).
Proof.
  intros (-> & _ & Hfree)%book_specific_booked. unfold cancel_booking.
  rewrite Forall_forall in Hfree.
  rewrite cancel_loop_all_keys.
  - f_equal. apply map_eq. intros r.
    rewrite assign_all_lookup, mark_booked_lookup.
    case_decide as Hin; [|done]. symmetry. by apply Hfree.
  - apply Forall_forall. intros r Hin.
    rewrite mark_booked_lookup, decide_True by done. by eexists.
Qed.

Lemma cancel_undoes_book_specific_rooms_witness :
  cancel_booking (book_specific_rooms _initialize_rooms [305; 101]).1 [305; 101]
  = (_initialize_rooms,
     Status true ("Successfully canceled booking for rooms: "
                  +:+ str_list [305; 101])).
Proof.
  apply (cancel_undoes_book_specific_rooms _initialize_rooms
           (book_specific_rooms _initialize_rooms [305; 101]).1
           [305; 101] (Booking [305; 101] (Finite 8) MULTI_FLOOR)).
  vm_compute. reflexivity.
Defined.

(** *** Cancellation *)

(** X14: cancelling is idempotent: running the same cancellation a
    second time gives the same answer and leaves the map as the first
    run left it, whether the batch is accepted or rejected. *)
Theorem cancel_booking_idempotent (h : gmap Z bool) (rooms : list Z) :
  cancel_booking (cancel_booking h rooms).1 rooms = cancel_booking h rooms.
Proof.
  unfold cancel_booking.
  destruct (keys_or_first_unknown h rooms)
    as [Hkeys|(pre & r & post & -> & Hpre & Hr)].
  - rewrite (cancel_loop_all_keys h) by done. cbn [fst].
    rewrite cancel_loop_all_keys.
    + by rewrite assign_twice.
    + apply Forall_forall. intros x Hx.
      rewrite assign_all_lookup, decide_True by done. by eexists.
  - rewrite (cancel_loop_stops h) by done. cbn [fst].
    rewrite cancel_loop_stops.
    + by rewrite assign_twice.
    + apply Forall_forall. intros x Hx.
      rewrite assign_all_lookup, decide_True by done. by eexists.
    + rewrite assign_all_lookup, decide_False; [done|].
      intros Hin. rewrite Forall_forall in Hpre.
      destruct (Hpre r Hin) as [v Hv]. congruence.
Qed.

(** X15: when every identifier of the batch is a key of the map, the
    cancellation succeeds; afterwards every listed room is free, whether
    it was occupied or already free, and no other room has changed. *)
Theorem cancel_booking_frees (h : gmap Z bool) (rooms : list Z) :
  Forall (λ r, is_Some (h !! r)) rooms →
  ∃ h',
    cancel_booking h rooms
    = (h', Status true ("Successfully canceled booking for rooms: "
                        +:+ str_list rooms))
    ∧ ∀ r, (r ∈ rooms → h' !! r = Some true)
           ∧ (r ∉ rooms → h' !! r = h !! r).
Proof.
  intros Hkeys. unfold cancel_booking. rewrite cancel_loop_all_keys by done.
  eexists. split; [done|]. intros r. rewrite assign_all_lookup.
  split; intros Hr; [by rewrite decide_True|by rewrite decide_False].
Qed.

Lemma cancel_booking_frees_witness :
  ∃ h',
    cancel_booking nearly_full [110; 101]
    = (h', Status true ("Successfully canceled booking for rooms: "
                        +:+ str_list [110; 101]))
    ∧ ∀ r, (r ∈ [110; 101] → h' !! r = Some true)
           ∧ (r ∉ [110; 101] → h' !! r = nearly_full !! r).
Proof.
  apply (cancel_booking_frees nearly_full [110; 101]).
  repeat constructor; vm_compute; eauto.
Defined.

(** X16: when some identifier of the batch is not a key of the map, the
    cancellation is answered with the "is not a valid room" error for
    the first such identifier, and no room other than those listed
    before that identifier has changed. *)
Theorem cancel_booking_names_first_unknown (h : gmap Z bool) (rooms : list Z) :
  Exists (λ r, h !! r = None) rooms →
  ∃ pre r post h',
    rooms = pre ++ r :: post
    ∧ Forall (λ x, is_Some (h !! x)) pre
    ∧ h !! r = None
    ∧ cancel_booking h rooms = (h', Error (RoomNotValid r))
    ∧ classify (RoomNotValid r) = UnknownRoom
    ∧ ∀ x, x ∉ pre → h' !! x = h !! x.
Proof.
  intros Hbad.
  destruct (keys_or_first_unknown h rooms)
    as [Hkeys|(pre & r & post & -> & Hpre & Hr)].
  { exfalso. apply Exists_exists in Hbad as (r & Hin & Hr).
    rewrite Forall_forall in Hkeys. destruct (Hkeys r Hin) as [v Hv].
    congruence. }
  exists pre, r, post. eexists. unfold cancel_booking.
  rewrite cancel_loop_stops by done.
  split_and!; [done|done|done|done|done|].
  intros x Hx. by rewrite assign_all_lookup, decide_False.
Qed.

Lemma cancel_booking_names_first_unknown_witness :
  ∃ pre r post h',
    [101; 999; 102; 1008] = pre ++ r :: post
    ∧ Forall (λ x, is_Some (nearly_full !! x)) pre
    ∧ nearly_full !! r = None
    ∧ cancel_booking nearly_full [101; 999; 102; 1008]
      = (h', Error (RoomNotValid r))
    ∧ classify (RoomNotValid r) = UnknownRoom
    ∧ ∀ x, x ∉ pre → h' !! x = nearly_full !! x.
Proof.
  apply (cancel_booking_names_first_unknown nearly_full [101; 999; 102; 1008]).
  apply Exists_cons_tl, Exists_cons_hd. vm_compute. reflexivity.
Defined.

(** *** Reset and randomize *)

(** X17: after a reset, whatever the map was, exactly the rooms of the
    topology are keys and every one of them is free; and every automatic
    booking for 1 to 5 rooms then succeeds on a single floor. *)
Theorem reset_makes_all_free (h : gmap Z bool) (id n : Z) :
  ((reset h).1 !! id = Some true ↔ valid_room id)
  ∧ ((reset h).1 !! id = None ↔ ¬ valid_room id)
  ∧ (1 ≤ n ≤ 5 →
     ∃ h' rooms t,
       book_rooms (reset h).1 n = (h', Booked (Booking rooms t SINGLE_FLOOR))).
Proof.
  cbn [reset fst]. rewrite initialize_rooms_lookup.
  rewrite <- elem_of_all_room_numbers. split_and!.
  - case_decide; split; done.
  - case_decide; split; done.
  - intros Hn.
    destruct (book_rooms_outcome _initialize_rooms n Hn)
      as [(floor & i & _ & Hbook)|[(Hnone & _)|(Hnone & _)]];
      [by eexists _, _, _| |].
    + exfalso. revert Hnone. apply candidates_nonempty; [lia|].
      exists 1. split; [lia|]. transitivity 5; [lia|]. vm_compute. discriminate.
    + exfalso. revert Hnone. apply candidates_nonempty; [lia|].
      exists 1. split; [lia|]. transitivity 5; [lia|]. vm_compute. discriminate.
Qed.

Lemma reset_makes_all_free_witness :
  ∃ h' rooms t,
    book_rooms (reset nearly_full).1 5
    = (h', Booked (Booking rooms t SINGLE_FLOOR)).
Proof.
  apply (reset_makes_all_free nearly_full 101 5). lia.
Defined.

(** X18: randomize gives every key the value drawn for it and adds no
    key, so its result depends on the draws and on which rooms exist
    but not on the occupancy before the call. *)
Theorem randomize_forgets_occupancy
    (choice : Z → bool) (h1 h2 : gmap Z bool) :
  dom h1 = dom h2 →
  (generate_random_occupancy choice h1).1
  = (generate_random_occupancy choice h2).1
  ∧ ∀ r, (generate_random_occupancy choice h1).1 !! r
         = if decide (r ∈ dom h1) then Some (choice r) else None.
Proof.
  intros Hdom.
  assert (∀ h r, (generate_random_occupancy choice h).1 !! r
                 = if decide (r ∈ dom h) then Some (choice r) else None)
    as Hlookup.
  { intros h r. cbn [generate_random_occupancy fst].
    rewrite map_lookup_imap. case_decide as Hin.
    - apply elem_of_dom in Hin as [v ->]. done.
    - apply not_elem_of_dom in Hin. by rewrite Hin. }
  split; [|apply Hlookup].
  apply map_eq. intros r. by rewrite !Hlookup, Hdom.
Qed.

Lemma randomize_forgets_occupancy_witness :
  (generate_random_occupancy (λ r, Z.even r) _initialize_rooms).1
  = (generate_random_occupancy (λ r, Z.even r) nearly_full).1
  ∧ ∀ r, (generate_random_occupancy (λ r, Z.even r) _initialize_rooms).1 !! r
         = if decide (r ∈ dom _initialize_rooms) then Some (Z.even r) else None.
Proof.
  apply (randomize_forgets_occupancy (λ r, Z.even r) _initialize_rooms nearly_full).
  vm_compute. reflexivity.
Defined.

(** *** The HTTP handlers *)

(** X19: for a request that the [BookingRequest] model accepts (1 to 5
    rooms), the [/book] handler never raises one of the two room-count
    errors: it raises HTTP 400 with "Not enough rooms available for
    booking." and leaves the hotel untouched exactly when fewer rooms
    are free in total than requested, and otherwise returns a booking. *)
Theorem book_handler_on_accepted_request (hotel : gmap Z bool) (num_rooms : Z) :
  bookingRouter.BookingRequest_accepts num_rooms = true →
  (len (all_free hotel) < num_rooms →
   bookingRouter.book_rooms hotel num_rooms
   = (hotel, bookingRouter.HTTPException 400
               "Not enough rooms available for booking."))
  ∧ (num_rooms ≤ len (all_free hotel) →
     ∃ b, bookingRouter.book_rooms hotel num_rooms
          = (mark_booked hotel (booked_rooms b),
             bookingRouter.Return (Booked b))
          ∧ len (booked_rooms b) = num_rooms).
Proof.
  unfold bookingRouter.BookingRequest_accepts.
  intros [Hlo%bool_decide_eq_true Hhi%bool_decide_eq_true]%andb_true_iff.
  assert (1 ≤ num_rooms ≤ 5) as Hn by lia.
  unfold bookingRouter.book_rooms.
  destruct (book_rooms_outcome hotel num_rooms Hn)
    as [(floor & i & Hwin & Hbook)|[(_ & i & Hi & Hlen & Hbook)|(_ & Hfew & Hbook)]];
    rewrite Hbook; cbn [bookingRouter.raise_on_error error_message].
  - destruct Hwin as (Hfloor & Hi & Hlen).
    pose proof (get_available_length_le hotel floor Hfloor) as Hle.
    split; [lia|]. intros _. eexists (Booking _ _ _). split; [done|].
    cbn [booked_rooms]. unfold len, window.
    rewrite slice_length by lia. lia.
  - split; [lia|]. intros _. eexists (Booking _ _ _). split; [done|].
    cbn [booked_rooms]. unfold len. rewrite slice_length by lia. lia.
  - split; [done|lia].
Qed.

Lemma book_handler_on_accepted_request_witness :
  bookingRouter.book_rooms nearly_full 3
  = (nearly_full, bookingRouter.HTTPException 400
                    "Not enough rooms available for booking.").
Proof.
  apply (book_handler_on_accepted_request nearly_full 3).
  - vm_compute. reflexivity.
  - vm_compute. reflexivity.
Defined.
